(** * Model selection and promotion (scripts/pipeline/select_and_register.py)

    A shallow embedding of [register_model], [select_model] and the two
    candidate-evaluation routines, over a model of the experiment-tracking
    service they call (runs, experiments, model registry).

    Conventions.
    - Python code that talks to the tracking service is written in the
      state-and-exception monad [Mlflow]: a computation takes the state of
      the service and of the process ([World]) and yields either a value or
      a raised exception, with the state reached.
    - Metric values are finite IEEE doubles in the source.  They are modelled
      by the rational number they denote ([Q]); the only operation the
      program applies to them is the comparison [<], which on finite doubles
      agrees with the comparison of the denoted rationals.
    - Every call to the service may fail for reasons outside the program
      (network, server).  [faults] is the script of such failures: each
      service call consumes one entry, and raises when the entry holds an
      exception. *)

From Stdlib Require Import QArith Ascii.
From stdpp Require Import gmap strings list fin_maps sorting infinite.

Close Scope Q_scope.

(** ** Exceptions *)

(** Error codes of the tracking service (mlflow.protos.databricks_pb2). *)
Inductive ErrorCode :=
  | RESOURCE_DOES_NOT_EXIST
  | RESOURCE_ALREADY_EXISTS
  | INVALID_PARAMETER_VALUE
  | PERMISSION_DENIED
  | TEMPORARILY_UNAVAILABLE
  | INTERNAL_ERROR.

(** The Python exceptions that the program can meet.  [RestException] is
    [mlflow.exceptions.RestException]: the service answered a REST call with
    an error, whatever its code.  [MlflowException] stands for the other
    exceptions of the client library (for instance when the service cannot be
    reached). *)
Inductive Exn :=
  | RestException (code : ErrorCode)
  | MlflowException (code : ErrorCode)
  | KeyError (key : string)
  | IndexError
  | AttributeError (attr : string)
  | NameError (name : string)
  | OSError (path : string)
  | ValueError (msg : string)
  | Exception (msg : string).

(** [except mlflow.exceptions.RestException] matches on the class. *)
Definition is_RestException (e : Exn) : bool :=
  match e with RestException _ => true | _ => false end.

(** ** Entities of the tracking service *)

Inductive Stage := NoStage | Staging | Production | Archived.

Global Instance Stage_eq_dec : EqDecision Stage.
Proof. solve_decision. Defined.

Inductive LifecycleStage := Active | Deleted.

Global Instance LifecycleStage_eq_dec : EqDecision LifecycleStage.
Proof. solve_decision. Defined.

Inductive ViewType := ACTIVE_ONLY | DELETED_ONLY | ALL.

Inductive RunStatus := RUNNING | FINISHED | FAILED.

Record RunInfo := {
  run_id : string;
  experiment_id : nat;
  status : RunStatus;
  lifecycle_stage : LifecycleStage;
}.

Record RunData := {
  metrics : gmap string Q;
  params : gmap string string;
  tags : gmap string string;
}.

Record Run := { info : RunInfo; data : RunData }.

Record ModelVersion := {
  version : nat;
  mv_run_id : string;
  source : string;
  current_stage : Stage;
  mv_tags : gmap string string;
}.

(** ** State *)

Record World := {
  tracking_uri : string;
  (** experiment names; the identifier of an experiment is its position *)
  experiments : list string;
  active_experiment : option nat;
  (** the runs of the tracking store, most recently started first *)
  runs : list Run;
  (** the run opened by [mlflow.start_run] and not yet ended *)
  active_run : option string;
  (** registered models: name to versions, in order of registration *)
  registry : gmap string (list ModelVersion);
  faults : list (option Exn);
}.

Definition with_tracking_uri (u : string) (w : World) : World :=
  {| tracking_uri := u; experiments := experiments w;
     active_experiment := active_experiment w; runs := runs w;
     active_run := active_run w; registry := registry w; faults := faults w |}.

Definition with_experiments (es : list string) (a : option nat) (w : World) : World :=
  {| tracking_uri := tracking_uri w; experiments := es;
     active_experiment := a; runs := runs w;
     active_run := active_run w; registry := registry w; faults := faults w |}.

Definition with_runs (rs : list Run) (a : option string) (w : World) : World :=
  {| tracking_uri := tracking_uri w; experiments := experiments w;
     active_experiment := active_experiment w; runs := rs;
     active_run := a; registry := registry w; faults := faults w |}.

Definition with_registry (g : gmap string (list ModelVersion)) (w : World) : World :=
  {| tracking_uri := tracking_uri w; experiments := experiments w;
     active_experiment := active_experiment w; runs := runs w;
     active_run := active_run w; registry := g; faults := faults w |}.

Definition with_faults (fs : list (option Exn)) (w : World) : World :=
  {| tracking_uri := tracking_uri w; experiments := experiments w;
     active_experiment := active_experiment w; runs := runs w;
     active_run := active_run w; registry := registry w; faults := fs |}.

(** ** The monad *)

Inductive Outcome (A : Type) :=
  | Return (a : A)
  | Raise (e : Exn).
Arguments Return {A} a.
Arguments Raise {A} e.

Definition Mlflow (A : Type) : Type := World → Outcome A * World.

Definition ret {A} (a : A) : Mlflow A := λ w, (Return a, w).

Definition raise {A} (e : Exn) : Mlflow A := λ w, (Raise e, w).

Definition bind {A B} (m : Mlflow A) (k : A → Mlflow B) : Mlflow B :=
  λ w, match m w with
       | (Return a, w') => k a w'
       | (Raise e, w') => (Raise e, w')
       end.

Notation "x ⇐ m ; k" := (bind m (λ x, k))
  (at level 100, m at next level, k at level 200, right associativity,
   format "'[v' x  ⇐  m ; '/' k ']'").
Notation "m ;; k" := (bind m (λ _, k))
  (at level 100, k at level 200, right associativity,
   format "'[v' m ;; '/' k ']'").

(** [try: m except c: h] where [c] selects the exceptions caught. *)
Definition try_except {A} (m : Mlflow A) (c : Exn → bool) (h : Exn → Mlflow A)
  : Mlflow A :=
  λ w, match m w with
       | (Raise e, w') => if c e then h e w' else (Raise e, w')
       | r => r
       end.

(** [try: m finally: f]; [f] is told whether [m] raised. *)
Definition try_finally {A} (m : Mlflow A) (f : bool → Mlflow unit) : Mlflow A :=
  λ w, match m w with
       | (Return a, w') =>
           match f false w' with
           | (Return _, w'') => (Return a, w'')
           | (Raise e, w'') => (Raise e, w'')
           end
       | (Raise e, w') =>
           match f true w' with
           | (Return _, w'') => (Raise e, w'')
           | (Raise e', w'') => (Raise e', w'')
           end
       end.

(** [d[key]] on a Python dict. *)
Definition getitem {V} (d : gmap string V) (key : string) : Mlflow V :=
  match d !! key with
  | Some v => ret v
  | None => raise (KeyError key)
  end.

(** One call to the tracking service: the next entry of the failure script
    decides whether it is answered. *)
Definition service_call {A} (op : Mlflow A) : Mlflow A :=
  λ w, match faults w with
       | Some e :: fs => (Raise e, with_faults fs w)
       | None :: fs => op (with_faults fs w)
       | [] => op w
       end.

(** ** Operations of the tracking service used by the program *)

(** [mlflow.set_tracking_uri]: process-wide configuration, no service call. *)
Definition set_tracking_uri (u : string) : Mlflow unit :=
  λ w, (Return tt, with_tracking_uri u w).

(** The version with the greatest version number. *)
Fixpoint latest (vs : list ModelVersion) : option ModelVersion :=
  match vs with
  | [] => None
  | v :: vs' =>
      match latest vs' with
      | None => Some v
      | Some v' => Some (if (version v' <? version v)%nat then v else v')
      end
  end.

Definition in_stage (st : Stage) (vs : list ModelVersion) : list ModelVersion :=
  filter (λ v, current_stage v = st) vs.

Definition latest_in_stage (st : Stage) (vs : list ModelVersion) : option ModelVersion :=
  latest (in_stage st vs).

(** [client.get_latest_versions(name, stages)]: for each requested stage the
    latest version in that stage, when there is one.  A name that is not
    registered is answered with the REST error RESOURCE_DOES_NOT_EXIST. *)
Definition get_latest_versions (name : string) (stages : list Stage)
  : Mlflow (list ModelVersion) :=
  service_call (λ w,
    match registry w !! name with
    | None => (Raise (RestException RESOURCE_DOES_NOT_EXIST), w)
    | Some vs => (Return (omap (λ st, latest_in_stage st vs) stages), w)
    end).

Definition find_run (id : string) (rs : list Run) : option Run :=
  snd <$> list_find (λ r, run_id (info r) = id) rs.

(** [client.get_run(run_id)]. *)
Definition get_run (id : string) : Mlflow Run :=
  service_call (λ w,
    match find_run id (runs w) with
    | Some r => (Return r, w)
    | None => (Raise (RestException RESOURCE_DOES_NOT_EXIST), w)
    end).

(** The run named by a model URI of the form [runs:/<run_id>/<path>]. *)
Fixpoint strip_prefix (p s : string) : option string :=
  match p with
  | EmptyString => Some s
  | String a p' =>
      match s with
      | EmptyString => None
      | String b s' => if Ascii.eqb a b then strip_prefix p' s' else None
      end
  end.

Fixpoint until_slash (s : string) : string :=
  match s with
  | EmptyString => EmptyString
  | String c s' => if Ascii.eqb c "/"%char then EmptyString else String c (until_slash s')
  end.

Definition run_id_of_uri (uri : string) : string :=
  match strip_prefix "runs:/" uri with
  | Some rest => until_slash rest
  | None => EmptyString
  end.

Definition next_version (vs : list ModelVersion) : nat :=
  S (max_list (version <$> vs)).

(** [mlflow.register_model(model_uri, name, tags)]: creates the registered
    model when the name is new, then a new version of it, in no stage. *)
Definition mlflow_register_model (model_uri name : string) (tgs : gmap string string)
  : Mlflow ModelVersion :=
  service_call (λ w,
    let vs := default [] (registry w !! name) in
    let mv := {| version := next_version vs;
                 mv_run_id := run_id_of_uri model_uri;
                 source := model_uri;
                 current_stage := NoStage;
                 mv_tags := tgs |} in
    (Return mv, with_registry (<[name := vs ++ [mv]]> (registry w)) w)).

Definition set_stage (st : Stage) (mv : ModelVersion) : ModelVersion :=
  {| version := version mv; mv_run_id := mv_run_id mv; source := source mv;
     current_stage := st; mv_tags := mv_tags mv |}.

Definition transition (v : nat) (st : Stage) (vs : list ModelVersion)
  : list ModelVersion :=
  (λ mv, if decide (version mv = v) then set_stage st mv else mv) <$> vs.

(** [client.transition_model_version_stage(name, version, stage)], with the
    default [archive_existing_versions=False]: the stage of that version is
    set and no other version is touched. *)
Definition transition_model_version_stage (name : string) (v : nat) (st : Stage)
  : Mlflow unit :=
  service_call (λ w,
    match registry w !! name with
    | None => (Raise (RestException RESOURCE_DOES_NOT_EXIST), w)
    | Some vs =>
        if bool_decide (v ∈ version <$> vs)
        then (Return tt, with_registry (<[name := transition v st vs]> (registry w)) w)
        else (Raise (RestException RESOURCE_DOES_NOT_EXIST), w)
    end).

(** ** Python list and float helpers *)

(** [l[-1]] *)
Definition last_item {A} (l : list A) : Mlflow A :=
  match last l with
  | Some x => ret x
  | None => raise IndexError
  end.

(** [l[0]] *)
Definition first_item {A} (l : list A) : Mlflow A :=
  match l with
  | x :: _ => ret x
  | [] => raise IndexError
  end.

(** Truth value of a list: non-empty. *)
Definition truthy {A} (l : list A) : bool :=
  match l with [] => false | _ :: _ => true end.

(** [x < y] on metric values. *)
Definition Qltb (x y : Q) : bool := negb (Qle_bool y x).

(** ** [register_model] *)

Definition model_uri_of (run : Run) : string :=
  "runs:/" +:+ run_id (info run) +:+ "/model".

Definition register_model (run : Run) (mlflow_tracking_uri model_name : string)
  : Mlflow bool :=
  set_tracking_uri mlflow_tracking_uri ;;
  (* extract rmse of current production model *)
  production ⇐ try_except (get_latest_versions model_name [Production])
                 is_RestException (λ _, ret []) ;
  production_rmse ⇐
    (if truthy production then
       latest_production ⇐ last_item production ;
       production_run ⇐ get_run (mv_run_id latest_production) ;
       rmse ⇐ getitem (metrics (data production_run)) "test_rmse" ;
       ret (Some rmse)
     else ret None) ;
  (* register and transition to 'Staging' if candidate model performs better
     than current production model or if no production model exists *)
  better ⇐
    (if negb (truthy production) then ret true
     else
       candidate_rmse ⇐ getitem (metrics (data run)) "test_rmse" ;
       match production_rmse with
       | Some rmse => ret (Qltb candidate_rmse rmse)
       | None => raise (NameError "production_rmse")
       end) ;
  if (better : bool) then
    (* registration *)
    model_version ⇐ mlflow_register_model (model_uri_of run) model_name
                      (tags (data run)) ;
    (* transition to 'Staging' *)
    transition_model_version_stage model_name (version model_version) Staging ;;
    ret true
  else ret false.

(** ** Experiments and runs *)

Record Experiment := { exp_id : nat; exp_name : string }.

Definition experiment_index (name : string) (es : list string) : option nat :=
  fst <$> list_find (λ n, n = name) es.

(** [mlflow.set_experiment(name)]: the experiment is created when the name is
    new, and becomes the one new runs are started in. *)
Definition set_experiment (name : string) : Mlflow unit :=
  service_call (λ w,
    match experiment_index name (experiments w) with
    | Some i => (Return tt, with_experiments (experiments w) (Some i) w)
    | None =>
        (Return tt,
         with_experiments (experiments w ++ [name]) (Some (length (experiments w))) w)
    end).

(** [client.get_experiment_by_name(name)]: [None] when there is none. *)
Definition get_experiment_by_name (name : string) : Mlflow (option Experiment) :=
  service_call (λ w,
    (Return ((λ i, {| exp_id := i; exp_name := name |})
               <$> experiment_index name (experiments w)), w)).

(** [e.experiment_id] where [e] may be [None]. *)
Definition experiment_id_of (e : option Experiment) : Mlflow nat :=
  match e with
  | Some x => ret (exp_id x)
  | None => raise (AttributeError "experiment_id")
  end.

Definition run_ids (rs : list Run) : list string := (λ r, run_id (info r)) <$> rs.

Definition new_run (id : string) (e : nat) : Run :=
  {| info := {| run_id := id; experiment_id := e; status := RUNNING;
                lifecycle_stage := Active |};
     data := {| metrics := ∅; params := ∅; tags := ∅ |} |}.

(** [mlflow.start_run()]: refused by the client while a run is open;
    otherwise the service creates a run under an identifier not in use, in
    the active experiment (the default experiment, 0, when none was set). *)
Definition start_run : Mlflow string :=
  λ w, match active_run w with
       | Some _ => (Raise (Exception "a run is already active"), w)
       | None =>
           service_call (λ w,
             let id := fresh (run_ids (runs w)) in
             (Return id,
              with_runs (new_run id (default 0 (active_experiment w)) :: runs w)
                        (Some id) w)) w
       end.

(** The run that the fluent logging functions write to: the open run, or one
    started on the spot. *)
Definition get_or_start_run : Mlflow string :=
  λ w, match active_run w with
       | Some id => (Return id, w)
       | None => start_run w
       end.

Definition update_run (id : string) (f : Run → Run) (rs : list Run) : list Run :=
  (λ r, if decide (run_id (info r) = id) then f r else r) <$> rs.

Definition add_tag (key value : string) (r : Run) : Run :=
  {| info := info r;
     data := {| metrics := metrics (data r); params := params (data r);
                tags := <[key := value]> (tags (data r)) |} |}.

Definition add_metric (key : string) (value : Q) (r : Run) : Run :=
  {| info := info r;
     data := {| metrics := <[key := value]> (metrics (data r));
                params := params (data r); tags := tags (data r) |} |}.

Definition with_status (s : RunStatus) (r : Run) : Run :=
  {| info := {| run_id := run_id (info r); experiment_id := experiment_id (info r);
                status := s; lifecycle_stage := lifecycle_stage (info r) |};
     data := data r |}.

(** [mlflow.set_tag(key, value)] *)
Definition set_tag (key value : string) : Mlflow unit :=
  id ⇐ get_or_start_run ;
  service_call (λ w,
    (Return tt, with_runs (update_run id (add_tag key value) (runs w)) (active_run w) w)).

(** [mlflow.log_metric(key, value)] *)
Definition log_metric (key : string) (value : Q) : Mlflow unit :=
  id ⇐ get_or_start_run ;
  service_call (λ w,
    (Return tt, with_runs (update_run id (add_metric key value) (runs w)) (active_run w) w)).

(** [mlflow.end_run(status)] *)
Definition end_run (s : RunStatus) : Mlflow unit :=
  λ w, match active_run w with
       | None => (Return tt, w)
       | Some id =>
           service_call (λ w,
             (Return tt, with_runs (update_run id (with_status s) (runs w)) None w)) w
       end.

(** [with mlflow.start_run(): body].  On exit the run is ended, FINISHED when
    the body completed and FAILED when it raised; the exception of the body
    is not suppressed. *)
Definition with_start_run {A} (body : Mlflow A) : Mlflow A :=
  start_run ;;
  try_finally body (λ raised, end_run (if raised then FAILED else FINISHED)).

(** ** Searching runs *)

Definition visible (v : ViewType) (r : Run) : bool :=
  match v, lifecycle_stage (info r) with
  | ACTIVE_ONLY, Active => true
  | DELETED_ONLY, Deleted => true
  | ALL, _ => true
  | _, _ => false
  end.

Definition in_experiment (e : nat) (v : ViewType) (r : Run) : bool :=
  bool_decide (experiment_id (info r) = e) && visible v r.

(** The order of [order_by=["metrics.<key> ASC"]]: by increasing value of the
    metric, the runs without the metric last. *)
Definition metric_leb (key : string) (r1 r2 : Run) : bool :=
  match metrics (data r1) !! key, metrics (data r2) !! key with
  | Some a, Some b => Qle_bool a b
  | Some _, None => true
  | None, Some _ => false
  | None, None => true
  end.

Definition metric_le (key : string) (r1 r2 : Run) : Prop :=
  metric_leb key r1 r2 = true.

Global Instance metric_le_dec key : RelDecision (metric_le key).
Proof. intros r1 r2. unfold metric_le. apply _. Defined.

(** [client.search_runs(experiment_ids=e, run_view_type=v, max_results=n,
    order_by=["metrics.<key> ASC"])]: the runs of the experiment that the
    view shows, sorted, cut to the first [n].  The sort starts from the
    default order of the store (most recent first). *)
Definition search_runs (e : nat) (v : ViewType) (max_results : nat)
    (order_by_metric_asc : string) : Mlflow (list Run) :=
  service_call (λ w,
    (Return (take max_results
               (merge_sort (metric_le order_by_metric_asc)
                  (filter (λ r, in_experiment e v r = true) (runs w)))), w)).

(** ** The learning libraries

    Loading a pickled split, fitting a model and measuring its error are
    calls into numpy, xgboost and scikit-learn.  Their results are not
    computed here: a [Learner] gives, for each call, the value it returns or
    the exception it raises.  The entries that the libraries log on their own
    while fitting (autologging) are not part of the store modelled above,
    which holds what the program logs through its own calls. *)
Class Learner := {
  Array : Type;
  DMatrix : Type;
  Booster : Type;
  Forest : Type;
  (** [load_pickle(path)] of src/utils: a pair (features, target) *)
  load_pickle : string → Outcome (Array * Array);
  (** [xgb.DMatrix(X, label=y)] *)
  xgb_DMatrix : Array → Array → Outcome DMatrix;
  (** [space_eval(search_space, params)] then [xgb.train(params, dtrain,
      num_boost_round=100, evals=[(validation_data, 'validation')],
      early_stopping_rounds=10)] *)
  xgb_train : gmap string string → DMatrix → DMatrix → Outcome Booster;
  (** [mean_squared_error(y, booster.predict(d), squared=False)] *)
  xgb_rmse : Array → Booster → DMatrix → Outcome Q;
  (** [space_eval(search_space, params)] then
      [RandomForestRegressor(...).fit(X_train, y_train)] *)
  rf_fit : gmap string string → Array → Array → Outcome Forest;
  (** [mean_squared_error(y, rf.predict(X), squared=False)] *)
  rf_rmse : Array → Forest → Array → Outcome Q;
}.

(** A call outside the tracking service: its outcome, the state untouched. *)
Definition lift {A} (o : Outcome A) : Mlflow A := λ w, (o, w).

(** [mlflow.xgboost.autolog()], [mlflow.sklearn.autolog()] *)
Definition autolog (flavor : string) : Mlflow unit := ret tt.

(** [for x in l: body(x)] *)
Fixpoint for_each {A} (l : list A) (body : A → Mlflow unit) : Mlflow unit :=
  match l with
  | [] => ret tt
  | x :: l' => body x ;; for_each l' body
  end.

Section Evaluator.
Context {L : Learner}.

Definition load_dataset_splits (input_dir : string)
  : Mlflow (Array * Array * Array * Array * Array * Array) :=
  train ⇐ lift (load_pickle (input_dir +:+ "/train.pkl")) ;
  validation ⇐ lift (load_pickle (input_dir +:+ "/validation.pkl")) ;
  test ⇐ lift (load_pickle (input_dir +:+ "/test.pkl")) ;
  ret (train.1, train.2, validation.1, validation.2, test.1, test.2).

Definition train_and_log_xgboost (input_dir : string)
    (params : gmap string string) : Mlflow unit :=
  (* enable mlflow xgboost autologging *)
  autolog "xgboost" ;;
  (* load dataset splits *)
  splits ⇐ load_dataset_splits input_dir ;
  let '(X_train, y_train, X_val, y_val, X_test, y_test) := splits in
  (* xgboost requires a conversion of input types *)
  train_data ⇐ lift (xgb_DMatrix X_train y_train) ;
  validation_data ⇐ lift (xgb_DMatrix X_val y_val) ;
  test_data ⇐ lift (xgb_DMatrix X_test y_test) ;
  with_start_run (
    set_tag "model" "xgboost-regressor" ;;
    booster ⇐ lift (xgb_train params train_data validation_data) ;
    (* log validation error *)
    val_rmse ⇐ lift (xgb_rmse y_val booster validation_data) ;
    log_metric "validation_rmse" val_rmse ;;
    (* log test error *)
    test_rmse ⇐ lift (xgb_rmse y_test booster test_data) ;
    log_metric "test_rmse" test_rmse).

Definition train_and_log_train_random_forest_regressor (input_dir : string)
    (params : gmap string string) : Mlflow unit :=
  autolog "sklearn" ;;
  (* load dataset splits *)
  splits ⇐ load_dataset_splits input_dir ;
  let '(X_train, y_train, X_val, y_val, X_test, y_test) := splits in
  with_start_run (
    set_tag "model" "random-forest-regressor" ;;
    rf ⇐ lift (rf_fit params X_train y_train) ;
    (* log validation error *)
    val_rmse ⇐ lift (rf_rmse y_val rf X_val) ;
    log_metric "validation_rmse" val_rmse ;;
    (* log test error *)
    test_rmse ⇐ lift (rf_rmse y_test rf X_test) ;
    log_metric "test_rmse" test_rmse).

Definition TRAIN_AND_LOG_FUNC
  : gmap string (string → gmap string string → Mlflow unit) :=
  <["xgboost-regressor" := train_and_log_xgboost]>
    (<["random-forest-regressor" := train_and_log_train_random_forest_regressor]> ∅).

(** The three steps of [select_model], as its comments delimit them. *)

(* search top n runs according to rmse *)
Definition search_top_runs (number_top_runs : nat) (mlflow_hpo_experiment : string)
  : Mlflow (list Run) :=
  hpo_experiment ⇐ get_experiment_by_name mlflow_hpo_experiment ;
  hpo_id ⇐ experiment_id_of hpo_experiment ;
  search_runs hpo_id ACTIVE_ONLY number_top_runs "rmse".

(* train, validate and test using parameters of top runs *)
Definition evaluate_top_runs (input_dir : string) (top_runs : list Run)
  : Mlflow unit :=
  for_each top_runs (λ run,
    family ⇐ getitem (tags (data run)) "model" ;
    train_and_log ⇐ getitem TRAIN_AND_LOG_FUNC family ;
    train_and_log input_dir (params (data run))).

(* select model with lowest test RMSE *)
Definition select_best_run (mlflow_select_experiment : string) : Mlflow Run :=
  select_experiment ⇐ get_experiment_by_name mlflow_select_experiment ;
  select_id ⇐ experiment_id_of select_experiment ;
  best ⇐ search_runs select_id ACTIVE_ONLY 1 "test_rmse" ;
  first_item best.

Definition select_model (input_dir : string) (number_top_runs : nat)
    (mlflow_tracking_uri mlflow_hpo_experiment mlflow_select_experiment : string)
  : Mlflow Run :=
  (* initialize mlflow : tracking uri and experiment name *)
  set_tracking_uri mlflow_tracking_uri ;;
  set_experiment mlflow_select_experiment ;;
  top_runs ⇐ search_top_runs number_top_runs mlflow_hpo_experiment ;
  evaluate_top_runs input_dir top_runs ;;
  select_best_run mlflow_select_experiment.

End Evaluator.

(** * Vocabulary of the statements *)

Definition versions_of (name : string) (w : World) : list ModelVersion :=
  default [] (registry w !! name).

(** The Production-labeled versions of a model, and the baseline among them. *)
Definition production_versions (name : string) (w : World) : list ModelVersion :=
  in_stage Production (versions_of name w).

Definition baseline (name : string) (w : World) : option ModelVersion :=
  latest (production_versions name w).

(** The version that [register_model] leaves in the registry when it
    promotes [run]: the next version number, the artifact of the run as
    source, the tags of the run, stage [st]. *)
Definition registered_version (run : Run) (vs : list ModelVersion) (st : Stage)
  : ModelVersion :=
  {| version := next_version vs;
     mv_run_id := run_id_of_uri (model_uri_of run);
     source := model_uri_of run;
     current_stage := st;
     mv_tags := tags (data run) |}.

(** The state after a promotion: one version appended, in Staging. *)
Definition promoted (run : Run) (name : string) (w : World) : World :=
  with_registry
    (<[name := versions_of name w ++ [registered_version run (versions_of name w) Staging]]>
       (registry w)) w.

(** The promoting branch of [register_model]. *)
Definition stage_candidate (run : Run) (name : string) : Mlflow bool :=
  model_version ⇐ mlflow_register_model (model_uri_of run) name (tags (data run)) ;
  transition_model_version_stage name (version model_version) Staging ;;
  ret true.

(** What the program can change outside the registry is left as it was. *)
Definition same_tracking (w w' : World) : Prop :=
  runs w' = runs w ∧ experiments w' = experiments w ∧
  active_run w' = active_run w ∧ active_experiment w' = active_experiment w.

(** The state of the service is left as it was. *)
Definition same_service (w w' : World) : Prop :=
  registry w' = registry w ∧ same_tracking w w'.

(** The test error of the production baseline, as [register_model] reads
    it: the metric [test_rmse] of the run behind the latest Production
    version; and the test error of the candidate. *)
Definition baseline_run (name : string) (w : World) : option Run :=
  pv ← baseline name w; find_run (mv_run_id pv) (runs w).





(** ** Worked examples *)

Definition example_uri : string := "http://127.0.0.1:5000".
Definition example_model : string := "nyc-bus-delay-predictor".

Definition finished_run (id : string) (e : nat) (ms : list (string * Q))
    (ps ts : list (string * string)) : Run :=
  {| info := {| run_id := id; experiment_id := e; status := FINISHED;
                lifecycle_stage := Active |};
     data := {| metrics := list_to_map ms; params := list_to_map ps;
                tags := list_to_map ts |} |}.

(** A registry whose version 1 is in Production, produced by a run of test
    error 5.0. *)
Definition incumbent_world : World :=
  {| tracking_uri := ""; experiments := ["Default"]; active_experiment := None;
     runs := [finished_run "base" 0
                [("validation_rmse", 4.5%Q); ("test_rmse", 5.0%Q)] []
                [("model", "xgboost-regressor")]];
     active_run := None;
     registry := {[ example_model :=
                      [ {| version := 1; mv_run_id := "base";
                           source := "runs:/base/model";
                           current_stage := Production;
                           mv_tags := {[ "model" := "xgboost-regressor" ]} |} ] ]};
     faults := [] |}.

(** A candidate of the given test error; its other metrics are better than
    any baseline. *)
Definition candidate (test_rmse : Q) : Run :=
  finished_run "cand" 0
    [("rmse", 0.1%Q); ("validation_rmse", 0.1%Q); ("test_rmse", test_rmse)] []
    [("model", "random-forest-regressor")].



(** The runs that a search over experiment [e] with view ACTIVE_ONLY ranges
    over, and their ranking by a metric. *)
Definition pool (e : nat) (w : World) : list Run :=
  filter (λ r, in_experiment e ACTIVE_ONLY r = true) (runs w).

Definition ranked (key : string) (e : nat) (w : World) : list Run :=
  merge_sort (metric_le key) (pool e w).

(** The state in which [select_model] starts its search: the tracking URI is
    set and the selection experiment is the active one. *)
Definition selection_started (uri sel : string) (w : World) : World :=
  snd (set_experiment sel (with_tracking_uri uri w)).

(** A learner for the worked examples: every call succeeds, and the error
    of a model is read off its [max_depth] parameter. *)
Definition toy_error (p : gmap string string) : Q :=
  match p !! "max_depth" with
  | Some "4" => 4.1%Q
  | Some "5" => 3.9%Q
  | Some "6" => 4.5%Q
  | Some "7" => 3.8%Q
  | Some "8" => 5.2%Q
  | _ => 9.0%Q
  end.

Definition toy_learner : Learner :=
  {| Array := unit; DMatrix := unit;
     Booster := gmap string string; Forest := gmap string string;
     load_pickle _ := Return (tt, tt);
     xgb_DMatrix _ _ := Return tt;
     xgb_train p _ _ := Return p;
     xgb_rmse _ b _ := Return (toy_error b);
     rf_fit p _ _ := Return p;
     rf_rmse _ f _ := Return (toy_error f) |}.

Definition hpo_run (id family depth : string) (rmse : Q) : Run :=
  finished_run id 1 [("rmse", rmse)] [("max_depth", depth)] [("model", family)].

(** The end-to-end scenario: a search experiment ("hpo", number 1) with five
    finished runs, three of xgboost and two of random forest; the selection
    experiment does not exist yet. *)
Definition five_runs_world : World :=
  {| tracking_uri := ""; experiments := ["Default"; "hpo"];
     active_experiment := None;
     runs := [hpo_run "a" "xgboost-regressor" "4" 4.0%Q;
              hpo_run "b" "xgboost-regressor" "5" 3.0%Q;
              hpo_run "c" "random-forest-regressor" "6" 5.0%Q;
              hpo_run "d" "xgboost-regressor" "7" 2.0%Q;
              hpo_run "e" "random-forest-regressor" "8" 6.0%Q];
     active_run := None; registry := ∅; faults := [] |}.

(** What the learner measures for a candidate: the validation and test
    errors of the model fitted with its parameters, when every call into the
    learning libraries succeeds; the exception of the first call that fails
    otherwise. *)
Definition obind {A B} (o : Outcome A) (k : A → Outcome B) : Outcome B :=
  match o with
  | Return a => k a
  | Raise e => Raise e
  end.

Section Errors.
Context {L : Learner}.

Definition xgboost_errors (input_dir : string) (params : gmap string string)
  : Outcome (Q * Q) :=
  obind (load_pickle (input_dir +:+ "/train.pkl")) (λ train,
  obind (load_pickle (input_dir +:+ "/validation.pkl")) (λ validation,
  obind (load_pickle (input_dir +:+ "/test.pkl")) (λ test,
  obind (xgb_DMatrix train.1 train.2) (λ train_data,
  obind (xgb_DMatrix validation.1 validation.2) (λ validation_data,
  obind (xgb_DMatrix test.1 test.2) (λ test_data,
  obind (xgb_train params train_data validation_data) (λ booster,
  obind (xgb_rmse validation.2 booster validation_data) (λ val_rmse,
  obind (xgb_rmse test.2 booster test_data) (λ test_rmse,
  Return (val_rmse, test_rmse)))))))))).

Definition random_forest_errors (input_dir : string) (params : gmap string string)
  : Outcome (Q * Q) :=
  obind (load_pickle (input_dir +:+ "/train.pkl")) (λ train,
  obind (load_pickle (input_dir +:+ "/validation.pkl")) (λ validation,
  obind (load_pickle (input_dir +:+ "/test.pkl")) (λ test,
  obind (rf_fit params train.1 train.2) (λ rf,
  obind (rf_rmse validation.2 rf validation.1) (λ val_rmse,
  obind (rf_rmse test.2 rf test.1) (λ test_rmse,
  Return (val_rmse, test_rmse))))))).

Definition measured_errors (family input_dir : string) (params : gmap string string)
  : Outcome (Q * Q) :=
  if decide (family = "xgboost-regressor") then xgboost_errors input_dir params
  else if decide (family = "random-forest-regressor")
       then random_forest_errors input_dir params
       else Raise (KeyError family).

End Errors.

(** The run that an evaluation leaves in the store, and the store after it. *)
Definition logged_run (id : string) (e : nat) (family : string) (v t : Q) : Run :=
  {| info := {| run_id := id; experiment_id := e; status := FINISHED;
                lifecycle_stage := Active |};
     data := {| metrics := <["test_rmse" := t]> (<["validation_rmse" := v]> ∅);
                params := ∅;
                tags := <["model" := family]> ∅ |} |}.

Definition logged (family : string) (v t : Q) (w : World) : World :=
  with_runs
    (logged_run (fresh (run_ids (runs w))) (default 0 (active_experiment w))
       family v t :: runs w)
    None w.

(** A run whose [model] tag names one of the two model families. *)
Definition recognized (r : Run) : Prop :=
  ∃ family, tags (data r) !! "model" = Some family ∧
    (family = "xgboost-regressor" ∨ family = "random-forest-regressor").

(** A candidate that can be evaluated: its family is known and the learner
    measures both errors for its parameters. *)
Definition evaluable {L : Learner} (input_dir : string) (r : Run) : Prop :=
  ∃ family v t, tags (data r) !! "model" = Some family ∧
    measured_errors family input_dir (params (data r)) = Return (v, t).

(** The part of [select_model] that precedes the evaluation. *)
Definition select_candidates (n : nat) (uri hpo sel : string) : Mlflow (list Run) :=
  set_tracking_uri uri ;;
  set_experiment sel ;;
  search_top_runs n hpo.

(** A search experiment in which one run carries the tag of a family that
    the program does not know. *)
Definition unknown_family_world : World :=
  {| tracking_uri := ""; experiments := ["Default"; "hpo"];
     active_experiment := None;
     runs := [hpo_run "a" "xgboost-regressor" "4" 4.0%Q;
              hpo_run "b" "lightgbm-regressor" "5" 3.0%Q];
     active_run := None; registry := ∅; faults := [] |}.

(** The runs that evaluations leave are active runs of the experiment that
    was active, finished, with a test error and the tag of a known family. *)
Definition evaluated_in (e : nat) (r : Run) : Prop :=
  experiment_id (info r) = e ∧ lifecycle_stage (info r) = Active ∧
  is_Some (metrics (data r) !! "test_rmse") ∧ recognized r.


(** A registry whose Production version was produced by a run that the
    tracking store no longer holds. *)
Definition orphan_world : World :=
  with_runs [] None incumbent_world.

(** A learner for which the test split is missing. *)
Definition no_test_split_learner : Learner :=
  {| Array := unit; DMatrix := unit;
     Booster := gmap string string; Forest := gmap string string;
     load_pickle path :=
       if String.eqb path "data/test.pkl" then Raise (OSError path)
       else Return (tt, tt);
     xgb_DMatrix _ _ := Return tt;
     xgb_train p _ _ := Return p;
     xgb_rmse _ b _ := Return (toy_error b);
     rf_fit p _ _ := Return p;
     rf_rmse _ f _ := Return (toy_error f) |}.

(** A learner whose xgboost training fails, and whose random forest cannot
    be scored on the test split (marked by the target array [false]). *)
Definition failing_learner : Learner :=
  {| Array := bool; DMatrix := unit;
     Booster := gmap string string; Forest := gmap string string;
     load_pickle path := Return (true, negb (String.eqb path "data/test.pkl"));
     xgb_DMatrix _ _ := Return tt;
     xgb_train p _ _ := Raise (ValueError "xgboost training failed");
     xgb_rmse _ b _ := Return (toy_error b);
     rf_fit p _ _ := Return p;
     rf_rmse y f _ :=
       if y then Return (toy_error f) else Raise (ValueError "no test target") |}.

(** The run that an evaluation leaves when it fails after the run was
    started: marked FAILED, with the family tag and the metrics logged before
    the failure. *)
Definition failed_run (id : string) (e : nat) (family : string)
    (logged_metrics : gmap string Q) : Run :=
  {| info := {| run_id := id; experiment_id := e; status := FAILED;
                lifecycle_stage := Active |};
     data := {| metrics := logged_metrics; params := ∅;
                tags := <["model" := family]> ∅ |} |}.

(** A tracking store without the search experiment, and one whose search
    experiment holds no run. *)
Definition no_hpo_world : World :=
  with_experiments ["Default"] None five_runs_world.

Definition empty_hpo_world : World :=
  with_runs [] None five_runs_world.

(** A computation that leaves a component of the state as it finds it, on
    every path. *)
Definition keeps {A X} (f : World → X) (m : Mlflow A) : Prop :=
  ∀ w, f (snd (m w)) = f w.

(** A candidate that can be evaluated and whose measured test error
    satisfies [P]. *)
Definition evaluable_with {L : Learner} (P : Q → Prop) (input_dir : string)
    (r : Run) : Prop :=
  ∃ family v t, tags (data r) !! "model" = Some family ∧
    measured_errors family input_dir (params (data r)) = Return (v, t) ∧ P t.

(** The five-run scenario after an earlier selection: the selection
    experiment (number 2) already holds a run of test error 1.0. *)
Definition earlier_selection_world : World :=
  {| tracking_uri := ""; experiments := ["Default"; "hpo"; "select"];
     active_experiment := None;
     runs := finished_run "earlier" 2
               [("validation_rmse", 1.0%Q); ("test_rmse", 1.0%Q)] []
               [("model", "xgboost-regressor")]
             :: runs five_runs_world;
     active_run := None; registry := ∅; faults := [] |}.

(** * Hyperparameter search (scripts/pipeline/train.py)

    The search is driven by hyperopt: [fmin] asks [tpe.suggest] for the next
    point of a search space, given the trials made so far, and calls the
    objective on it.  What [tpe.suggest] answers and what fitting a model at
    a point gives are not computed here: a [Search] gives them, as [Learner]
    does for the evaluation routines. *)

(** The expressions that the two search spaces are written with. *)
Inductive SpaceExpr :=
  | hp_quniform (label : string) (low high q : Z)
  | hp_loguniform (label : string) (low high : Z)
  | scope_int (e : SpaceExpr)
  | space_str (s : string)
  | space_int (n : Z).

Inductive TrialStatus := STATUS_OK | STATUS_FAIL.

(** The dictionary that an objective returns. *)
Record Trial := { loss : Q; trial_status : TrialStatus }.

Class Search {L : Learner} := {
  (** a point of a search space: a value for each of its parameters *)
  Point : Type;
  (** [tpe.suggest]: the next point, from the space and the points tried so
      far with their losses *)
  tpe_suggest : list (string * SpaceExpr) → list (Point * Q) → Point;
  (** [xgb.train(params=point, dtrain=train_data, num_boost_round=100,
      evals=[(validation_data, 'validation')], early_stopping_rounds=10)] *)
  xgb_train_point : Point → DMatrix → DMatrix → Outcome Booster;
  (** [RandomForestRegressor(...).fit(X_train, y_train)] with the point as
      keyword arguments *)
  rf_fit_point : Point → Array → Array → Outcome Forest;
}.

(** [mlflow.get_tracking_uri()] *)
Definition get_tracking_uri : Mlflow string := λ w, (Return (tracking_uri w), w).

(** [mlflow.list_experiments()] *)
Definition list_experiments : Mlflow (list Experiment) :=
  service_call (λ w,
    (Return (imap (λ i name, {| exp_id := i; exp_name := name |}) (experiments w)), w)).

(** [print(...)]: what is printed is not kept. *)
Definition print {A} (x : A) : Mlflow unit := ret tt.

Section Train.
Context {L : Learner} {T : Search}.

(** The trial of least loss, the earliest one among equals. *)
Fixpoint argmin (trials : list (Point * Q)) : option (Point * Q) :=
  match trials with
  | [] => None
  | t :: rest =>
      match argmin rest with
      | None => Some t
      | Some b => Some (if Qle_bool (snd t) (snd b) then t else b)
      end
  end.

Fixpoint fmin_trials (fn : Point → Mlflow Trial) (space : list (string * SpaceExpr))
    (evals : nat) (trials : list (Point * Q)) : Mlflow (list (Point * Q)) :=
  match evals with
  | 0 => ret trials
  | S evals' =>
      let point := tpe_suggest space trials in
      result ⇐ fn point ;
      fmin_trials fn space evals' (trials ++ [(point, loss result)])
  end.

(** [fmin(fn, space, algo=tpe.suggest, max_evals, trials=Trials())]: the
    objective is called [max_evals] times, an exception it raises ends the
    search, and the point of least loss is returned. *)
Definition fmin (fn : Point → Mlflow Trial) (space : list (string * SpaceExpr))
    (max_evals : nat) : Mlflow Point :=
  trials ⇐ fmin_trials fn space max_evals [] ;
  match argmin trials with
  | Some best => ret (fst best)
  | None => raise (Exception "all trials failed")
  end.

Definition train_random_forest_regressor (X_train y_train X_val y_val : Array)
  : Mlflow unit :=
  (* enable mlflow sklearn autologging *)
  autolog "sklearn" ;;
  let objective (params : Point) : Mlflow Trial :=
    rmse ⇐ with_start_run (
      set_tag "model" "random-forest-regressor" ;;
      rf ⇐ lift (rf_fit_point params X_train y_train) ;
      rmse ⇐ lift (rf_rmse y_val rf X_val) ;
      log_metric "rmse" rmse ;;
      ret rmse) ;
    ret {| loss := rmse; trial_status := STATUS_OK |} in
  let search_space :=
    [ ("max_depth", scope_int (hp_quniform "max_depth" 1 20 1));
      ("n_estimators", scope_int (hp_quniform "n_estimators" 10 50 1));
      ("min_samples_split", scope_int (hp_quniform "min_samples_split" 2 10 1));
      ("min_samples_leaf", scope_int (hp_quniform "min_samples_leaf" 1 4 1));
      ("random_state", space_int 42) ] in
  fmin objective search_space 10 ;;
  ret tt.

Definition train_xgboost (X_train y_train X_val y_val : Array) : Mlflow unit :=
  (* enable mlflow xgboost autologging *)
  autolog "xgboost" ;;
  (* xgboost requires a conversion of input types *)
  train_data ⇐ lift (xgb_DMatrix X_train y_train) ;
  validation_data ⇐ lift (xgb_DMatrix X_val y_val) ;
  (* objective function to be used by hyperopt *)
  let objective (params : Point) : Mlflow Trial :=
    rmse ⇐ with_start_run (
      set_tag "model" "xgboost-regressor" ;;
      booster ⇐ lift (xgb_train_point params train_data validation_data) ;
      rmse ⇐ lift (xgb_rmse y_val booster validation_data) ;
      log_metric "rmse" rmse ;;
      ret rmse) ;
    ret {| loss := rmse; trial_status := STATUS_OK |} in
  (* hyperparameter search space for xgboost model *)
  let search_space :=
    [ ("max_depth", scope_int (hp_quniform "max_depth" 4 100 1));
      ("learning_rate", hp_loguniform "learning_rate" (-3) 0);
      ("reg_alpha", hp_loguniform "reg_alpha" (-5) (-1));
      ("reg_lambda", hp_loguniform "reg_lambda" (-6) (-1));
      ("min_child_weight", hp_loguniform "min_child_weight" (-1) 3);
      ("objective", space_str "reg:squarederror");
      ("seed", space_int 42) ] in
  (* run hyperopt optimization *)
  fmin objective search_space 10 ;;
  ret tt.

Definition train (input_dir : string) (output_dir : option string)
    (mlflow_tracking_uri mlflow_experiment : string) : Mlflow unit :=
  (* initialize mlflow *)
  set_tracking_uri mlflow_tracking_uri ;;
  set_experiment mlflow_experiment ;;
  uri ⇐ get_tracking_uri ;
  print uri ;;
  all_experiments ⇐ list_experiments ;
  print all_experiments ;;
  (* load dataset splits *)
  train_split ⇐ lift (load_pickle (input_dir +:+ "/train.pkl")) ;
  validation_split ⇐ lift (load_pickle (input_dir +:+ "/validation.pkl")) ;
  (* train and evaluate xgboost model *)
  train_xgboost train_split.1 train_split.2 validation_split.1 validation_split.2 ;;
  (* train and evaluate random forest regressor model *)
  train_random_forest_regressor
    train_split.1 train_split.2 validation_split.1 validation_split.2.

End Train.

(** The run that a trial of the search leaves, and what the runs of a search
    have in common: finished active runs of one experiment, tagged with the
    family, with the single metric [rmse]. *)
Definition searched_run (id : string) (e : nat) (family : string) (rmse : Q) : Run :=
  {| info := {| run_id := id; experiment_id := e; status := FINISHED;
                lifecycle_stage := Active |};
     data := {| metrics := <["rmse" := rmse]> ∅; params := ∅;
                tags := <["model" := family]> ∅ |} |}.

Definition search_run_in (e : nat) (family : string) (r : Run) : Prop :=
  experiment_id (info r) = e ∧ status (info r) = FINISHED ∧
  lifecycle_stage (info r) = Active ∧
  tags (data r) = {[ "model" := family ]} ∧
  dom (metrics (data r)) = {[ "rmse" ]}.

(** An objective that, whenever the service answers, logs one run of the
    family and reports its [rmse] as the loss. *)
Definition logs_trial {L : Learner} {T : Search} (family : string)
    (fn : Point → Mlflow Trial) : Prop :=
  ∀ p w, faults w = [] → active_run w = None →
    ∃ rmse, fn p w =
      (Return {| loss := rmse; trial_status := STATUS_OK |},
       with_runs (searched_run (fresh (run_ids (runs w)))
                    (default 0 (active_experiment w)) family rmse :: runs w)
                 None w).

Definition depth_name (p : nat) : string :=
  match p with
  | 4 => "4" | 5 => "5" | 6 => "6" | 7 => "7" | 8 => "8" | _ => "9"
  end.

(** A search for the worked examples: it tries the depths 4, 5, 6, ... in
    turn, and fitting at a point gives the parameters the toy learner reads. *)
Definition toy_search : Search (L := toy_learner) :=
  {| Point := nat;
     tpe_suggest _ trials := 4 + length trials;
     xgb_train_point p _ _ := Return {[ "max_depth" := depth_name p ]};
     rf_fit_point p _ _ := Return {[ "max_depth" := depth_name p ]} |}.

(** A search whose xgboost training fails at every point. *)
Definition failing_search : Search (L := failing_learner) :=
  {| Point := nat;
     tpe_suggest _ trials := 4 + length trials;
     xgb_train_point p _ _ := Raise (ValueError "xgboost training failed");
     rf_fit_point p _ _ := Return {[ "max_depth" := depth_name p ]} |}.

(** A fresh tracking store: the default experiment only, no run. *)
Definition fresh_world : World :=
  {| tracking_uri := ""; experiments := ["Default"]; active_experiment := None;
     runs := []; active_run := None; registry := ∅; faults := [] |}.

(** A learner for which the validation split is missing, and a search over
    it. *)
Definition no_validation_split_learner : Learner :=
  {| Array := unit; DMatrix := unit;
     Booster := gmap string string; Forest := gmap string string;
     load_pickle path :=
       if String.eqb path "data/validation.pkl" then Raise (OSError path)
       else Return (tt, tt);
     xgb_DMatrix _ _ := Return tt;
     xgb_train p _ _ := Return p;
     xgb_rmse _ b _ := Return (toy_error b);
     rf_fit p _ _ := Return p;
     rf_rmse _ f _ := Return (toy_error f) |}.

Definition no_validation_split_search : Search (L := no_validation_split_learner) :=
  {| Point := nat;
     tpe_suggest _ trials := 4 + length trials;
     xgb_train_point p _ _ := Return {[ "max_depth" := depth_name p ]};
     rf_fit_point p _ _ := Return {[ "max_depth" := depth_name p ]} |}.

(** * The entry points *)

(** [os.getenv(name, fallback)] *)
Definition getenv (environ : gmap string string) (name fallback : string) : string :=
  default fallback (environ !! name).

Section EntryPoints.
Context {L : Learner} {T : Search}.

(** The entry point of select_and_register.py, for a command line without
    [--number_top_runs]: the default of the parser, 5, is what
    [select_model] receives.  (An option given on the command line reaches
    it as a string, which [select_model] as modelled here does not take.)
    The value is the line printed before [sys.exit(0)]. *)
Definition select_and_register_main (input_dir : string)
    (environ : gmap string string) : Mlflow string :=
  let number_top_runs := 5 in
  (* expand script arguments with mlflow parameters *)
  let mlflow_tracking_uri :=
    getenv environ "MLFLOW_TRACKING_URI" "http://127.0.0.1:5000" in
  let mlflow_hpo_experiment :=
    getenv environ "MLFLOW_HPO_EXPERIMENT_NAME" "nyc-bus-delay-predictor-hpo" in
  let mlflow_select_experiment :=
    getenv environ "MLFLOW_SELECT_EXPERIMENT_NAME" "nyc-bus-delay-predictor-select" in
  let mlflow_model_name :=
    getenv environ "MLFLOW_MODEL_NAME" "nyc-bus-delay-predictor" in
  (* select best candidate model *)
  mlflow_run ⇐ select_model input_dir number_top_runs mlflow_tracking_uri
                 mlflow_hpo_experiment mlflow_select_experiment ;
  (* register best candidate model model and transition to staging (if
     'better' than current) *)
  rc ⇐ register_model mlflow_run mlflow_tracking_uri mlflow_model_name ;
  ret ("model " +:+ mlflow_model_name +:+ " "
       +:+ (if (rc : bool) then "updated" else "not updated")).

(** The entry point of train.py. *)
Definition train_main (input_dir : string) (output_dir : option string)
    (environ : gmap string string) : Mlflow unit :=
  (* expand script arguments with mlflow parameters *)
  train input_dir output_dir
    (getenv environ "MLFLOW_TRACKING_URI" "http://127.0.0.1:5000")
    (getenv environ "MLFLOW_EXPERIMENT_NAME" "nyc-bus-delay-predictor").

End EntryPoints.

(** The environment of the worked examples: the search experiment is "hpo",
    the selection experiment "select". *)
Definition example_environ : gmap string string :=
  {[ "MLFLOW_HPO_EXPERIMENT_NAME" := "hpo";
     "MLFLOW_SELECT_EXPERIMENT_NAME" := "select" ]}.

(** * Properties *)

(** ** Metric comparison *)

Lemma Qltb_lt (x y : Q) : Qltb x y = true ↔ (x < y)%Q.
Proof.
  unfold Qltb. rewrite negb_true_iff. split.
  - intros Hb. apply Qnot_le_lt. intros Hle.
    apply Qle_bool_iff in Hle. congruence.
  - intros Hlt. destruct (Qle_bool y x) eqn:Hb; [|done].
    apply Qle_bool_iff in Hb. exfalso. by apply (Qlt_not_le x y).
Qed.

Lemma Qltb_eq_false (x y : Q) : (x == y)%Q → Qltb x y = false.
Proof.
  intros Heq. destruct (Qltb x y) eqn:Hb; [|done].
  apply Qltb_lt in Hb. rewrite Heq in Hb. by apply Qlt_irrefl in Hb.
Qed.

(** ** The registry *)

Lemma latest_None vs : latest vs = None ↔ vs = [].
Proof.
  destruct vs as [|v vs]; simpl; [done|].
  destruct (latest vs); split; intros; discriminate.
Qed.

Lemma latest_elem_of vs v : latest vs = Some v → v ∈ vs.
Proof.
  revert v. induction vs as [|x vs IH]; intros v; simpl; [done|].
  destruct (latest vs) as [v'|]; intros [= <-].
  - destruct (version v' <? version x)%nat; [left | right; by apply IH].
  - left.
Qed.

Lemma latest_greatest vs v :
  latest vs = Some v → ∀ v', v' ∈ vs → version v' ≤ version v.
Proof.
  revert v. induction vs as [|x vs IH]; intros v; simpl; [done|].
  destruct (latest vs) as [m|] eqn:Hm.
  - intros [= <-] v' Hin. specialize (IH m eq_refl).
    destruct (Nat.ltb_spec (version m) (version x)).
    + apply elem_of_cons in Hin as [->|Hin]; [lia|]. specialize (IH _ Hin). lia.
    + apply elem_of_cons in Hin as [->|Hin]; [lia|]. by apply IH.
  - intros [= <-] v' Hin. apply latest_None in Hm as ->.
    apply elem_of_cons in Hin as [->|Hin]; [lia|]. by apply elem_of_nil in Hin.
Qed.

Lemma baseline_in_production name w pv :
  baseline name w = Some pv →
  pv ∈ versions_of name w ∧ current_stage pv = Production.
Proof.
  intros Hb. apply latest_elem_of in Hb.
  unfold production_versions, in_stage in Hb.
  by apply list_elem_of_filter in Hb as [? ?].
Qed.

Lemma lookup_production name w :
  omap (λ st, latest_in_stage st (versions_of name w)) [Production]
  = match baseline name w with Some pv => [pv] | None => [] end.
Proof.
  unfold baseline, production_versions, latest_in_stage. simpl.
  by destruct (latest _).
Qed.

Lemma next_version_fresh vs : next_version vs ∉ version <$> vs.
Proof.
  intros Hin. apply max_list_elem_of_le in Hin. unfold next_version in Hin. lia.
Qed.

Lemma transition_other v st vs : v ∉ version <$> vs → transition v st vs = vs.
Proof.
  induction vs as [|x vs IH]; intros Hnot; [done|].
  rewrite fmap_cons, not_elem_of_cons in Hnot. destruct Hnot as [Hx Hvs].
  unfold transition in *. rewrite fmap_cons, IH by done.
  by rewrite decide_False by done.
Qed.

Lemma transition_registered vs mv st :
  version mv = next_version vs →
  transition (version mv) st (vs ++ [mv]) = vs ++ [set_stage st mv].
Proof.
  intros Hv. unfold transition at 1. rewrite fmap_app. f_equal.
  - apply transition_other. rewrite Hv. apply next_version_fresh.
  - simpl. by rewrite decide_True.
Qed.

(** ** [register_model] when every service call is answered *)

Lemma service_call_answered {A} (op : Mlflow A) w :
  faults w = [] → service_call op w = op w.
Proof. intros Hf. unfold service_call. by rewrite Hf. Qed.

Lemma get_latest_production name w :
  faults w = [] →
  try_except (get_latest_versions name [Production]) is_RestException (λ _, ret []) w
  = (Return (match baseline name w with Some pv => [pv] | None => [] end), w).
Proof.
  intros Hf. unfold try_except, get_latest_versions.
  rewrite service_call_answered by done.
  unfold baseline, production_versions, versions_of, latest_in_stage.
  destruct (registry w !! name) as [vs|]; simpl; [|done].
  by destruct (latest (in_stage Production vs)).
Qed.

Lemma stage_candidate_answered run name w :
  faults w = [] → stage_candidate run name w = (Return true, promoted run name w).
Proof.
  intros Hf.
  unfold stage_candidate, bind, mlflow_register_model, transition_model_version_stage.
  rewrite !service_call_answered by done. cbn [registry with_registry].
  rewrite lookup_insert_eq.
  fold (versions_of name w).
  set (mv := {| version := _ |}).
  rewrite bool_decide_true
    by (rewrite fmap_app; apply elem_of_app; right; simpl; left).
  unfold ret, promoted. f_equal. unfold with_registry; simpl. f_equal.
  rewrite insert_insert_eq. f_equal.
  by rewrite (transition_registered _ mv).
Qed.

Lemma register_model_answered run uri name w :
  faults w = [] →
  register_model run uri name w =
    let w1 := with_tracking_uri uri w in
    match baseline name w with
    | None => (Return true, promoted run name w1)
    | Some pv =>
        match find_run (mv_run_id pv) (runs w) with
        | None => (Raise (RestException RESOURCE_DOES_NOT_EXIST), w1)
        | Some prun =>
            match metrics (data prun) !! "test_rmse" with
            | None => (Raise (KeyError "test_rmse"), w1)
            | Some b =>
                match metrics (data run) !! "test_rmse" with
                | None => (Raise (KeyError "test_rmse"), w1)
                | Some c =>
                    if Qltb c b then (Return true, promoted run name w1)
                    else (Return false, w1)
                end
            end
        end
    end.
Proof.
  intros Hf. unfold register_model. fold (stage_candidate run name).
  unfold bind at 1. unfold set_tracking_uri at 1.
  unfold bind at 1. rewrite get_latest_production by done.
  change (baseline name (with_tracking_uri uri w)) with (baseline name w).
  cbv zeta.
  destruct (baseline name w) as [pv|].
  - cbn [truthy negb last_item last]. unfold bind at 1. unfold bind at 1.
    unfold ret at 1. unfold bind at 1. unfold get_run.
    rewrite service_call_answered by done. cbn [runs with_tracking_uri].
    destruct (find_run (mv_run_id pv) (runs w)) as [prun|]; [|done].
    unfold bind at 1, getitem at 1.
    destruct (metrics (data prun) !! "test_rmse") as [b|]; [|done].
    unfold ret at 1. unfold ret at 1. unfold bind at 1. unfold bind at 1.
    unfold getitem at 1.
    destruct (metrics (data run) !! "test_rmse") as [c|]; [|done].
    unfold ret at 1. unfold ret at 1.
    destruct (Qltb c b); [|done].
    by rewrite stage_candidate_answered.
  - cbn [truthy negb]. unfold bind at 1. unfold ret at 1.
    unfold bind at 1. unfold ret at 1.
    by rewrite stage_candidate_answered.
Qed.

(** ** [register_model] on every path *)

Lemma stage_candidate_paths run name w :
  let r := stage_candidate run name w in
  same_tracking w (snd r) ∧
  ((registry (snd r) = registry w ∧ ∃ e, fst r = Raise e) ∨
   (registry (snd r) =
      <[name := versions_of name w ++ [registered_version run (versions_of name w) NoStage]]>
        (registry w) ∧ ∃ e, fst r = Raise e) ∨
   (registry (snd r) =
      <[name := versions_of name w ++ [registered_version run (versions_of name w) Staging]]>
        (registry w) ∧ fst r = Return true)).
Proof.
  cbv zeta. destruct (stage_candidate run name w) as [o w'] eqn:E.
  revert E. unfold stage_candidate, bind, mlflow_register_model, same_tracking.
  unfold service_call at 1.
  destruct (faults w) as [|[e|] fs] eqn:Hf;
    [| intros [= <- <-]; simpl; by eauto 10 |].
  all: unfold transition_model_version_stage, service_call;
    cbn [faults with_faults with_registry registry version]; rewrite ?Hf.
  all: rewrite lookup_insert_eq.
  all: fold (versions_of name w); set (mv := {| version := _ |}).
  all: rewrite bool_decide_true
    by (rewrite fmap_app; apply elem_of_app; right; simpl; left).
  all: rewrite (transition_registered _ mv) by done.
  - intros [= <- <-]. simpl. rewrite insert_insert_eq. eauto 10.
  - destruct fs as [|[e|] fs']; intros [= <- <-]; simpl;
      rewrite ?insert_insert_eq; eauto 10.
Qed.

Lemma register_model_paths run uri name w :
  let r := register_model run uri name w in
  (same_service w (snd r) ∧ fst r ≠ Return true) ∨
  (∃ w1, same_service w w1 ∧ r = stage_candidate run name w1).
Proof.
  cbv zeta. unfold register_model. fold (stage_candidate run name).
  unfold bind, set_tracking_uri, try_except, get_latest_versions,
    get_run, getitem, last_item, service_call, ret, raise, same_service, same_tracking.
  repeat (case_match; simplify_eq/=); eauto 10.
  all: right; eexists; split; [|reflexivity]; simpl; eauto 10.
Qed.

(** ** Properties of [register_model] *)

Lemma baseline_None name w : baseline name w = None ↔ production_versions name w = [].
Proof. apply latest_None. Qed.





(** C4.  Whenever [register_model] returns false, the state of the service
    is the one it started from: the registry has the same versions in the
    same stages, and the tracking store is unchanged. *)
Theorem register_model_false_no_effect run uri name w w' :
  register_model run uri name w = (Return false, w') → same_service w w'.
Proof.
  intros Hr. destruct (register_model_paths run uri name w) as [[Hs _]|(w1 & Hs & Hr1)].
  - by rewrite Hr in Hs.
  - rewrite Hr in Hr1.
    destruct (stage_candidate_paths run name w1) as [_ Hp]. rewrite <- Hr1 in Hp.
    simpl in Hp. destruct Hp as [[_ [e ?]]|[[_ [e ?]]|[_ ?]]]; discriminate.
Qed.

Lemma register_model_false_no_effect_witness :
  same_service incumbent_world
    (with_tracking_uri example_uri incumbent_world).
Proof.
  apply (register_model_false_no_effect (candidate 5.0%Q) example_uri example_model).
  vm_compute. reflexivity.
Defined.

Lemma same_service_versions w w1 name :
  same_service w w1 → versions_of name w1 = versions_of name w.
Proof. intros [Hr _]. unfold versions_of. by rewrite Hr. Qed.

Lemma versions_of_insert name n vs w g :
  registry w = <[name := vs]> g →
  versions_of n w = if decide (name = n) then vs else default [] (g !! n).
Proof.
  intros Hr. unfold versions_of. rewrite Hr, lookup_insert.
  by destruct (decide (name = n)).
Qed.

(** C5.  On every path, whatever the service answers, [register_model]
    leaves the registry as it was or with one more version of the model, the
    one it registered, in no stage or in Staging.  So a version that is in
    Production afterwards was in Production before, and every version that
    existed keeps its stage. *)
Theorem register_model_only_stages run uri name w :
  let w' := snd (register_model run uri name w) in
  (registry w' = registry w ∨
   ∃ st, (st = NoStage ∨ st = Staging) ∧
     registry w' =
       <[name := versions_of name w ++ [registered_version run (versions_of name w) st]]>
         (registry w)) ∧
  (∀ n mv, mv ∈ versions_of n w' → current_stage mv = Production →
           mv ∈ versions_of n w) ∧
  (∀ n, versions_of n w `prefix_of` versions_of n w').
Proof.
  cbv zeta.
  assert (registry (snd (register_model run uri name w)) = registry w ∨
          ∃ st, (st = NoStage ∨ st = Staging) ∧
            registry (snd (register_model run uri name w)) =
              <[name := versions_of name w ++
                        [registered_version run (versions_of name w) st]]>
                (registry w)) as Hcases.
  { destruct (register_model_paths run uri name w) as [[[Hs _] _]|(w1 & Hs & ->)];
      [by left|].
    destruct (stage_candidate_paths run name w1) as [_ Hp].
    rewrite (same_service_versions w w1) in Hp by done.
    destruct Hs as [Hs _]. rewrite Hs in Hp.
    destruct Hp as [[? _]|[[? _]|[? _]]]; eauto. }
  split; [done|].
  destruct Hcases as [Heq|(st & Hst & Heq)].
  - unfold versions_of. rewrite Heq. split; [done|]. intros n. done.
  - split.
    + intros n mv. rewrite (versions_of_insert _ _ _ _ _ Heq).
      destruct (decide (name = n)) as [<-|]; [|done].
      rewrite elem_of_app, list_elem_of_singleton. intros [?| ->]; [done|].
      simpl. destruct Hst; congruence.
    + intros n. rewrite (versions_of_insert _ _ _ _ _ Heq).
      destruct (decide (name = n)) as [<-|]; [|done].
      by apply prefix_app_r.
Qed.

(** C6.  With a production baseline in place and every service call
    answered, the answer of [register_model] is a function of two values
    only: the baseline run's [test_rmse] and the candidate's [test_rmse].
    It is true exactly when the candidate's value is the lower one, and a
    run that lacks [test_rmse] makes the call fail with a [KeyError],
    whatever its other metrics ([rmse], [validation_rmse]) hold. *)
Theorem register_model_reads_test_rmse run uri name w prun :
  faults w = [] →
  baseline_run name w = Some prun →
  fst (register_model run uri name w) =
    match metrics (data prun) !! "test_rmse", metrics (data run) !! "test_rmse" with
    | Some b, Some c => Return (Qltb c b)
    | _, _ => Raise (KeyError "test_rmse")
    end ∧
  (∀ b c, Qltb c b = true ↔ (c < b)%Q).
Proof.
  intros Hf Hb. split; [|intros; apply Qltb_lt].
  rewrite register_model_answered by done. cbv zeta.
  unfold baseline_run in Hb. destruct (baseline name w) as [pv|]; [|done].
  simpl in Hb. rewrite Hb.
  destruct (metrics (data prun) !! "test_rmse") as [b|]; [|done].
  destruct (metrics (data run) !! "test_rmse") as [c|]; [|done].
  by destruct (Qltb c b).
Qed.

Lemma register_model_reads_test_rmse_witness :
  fst (register_model (candidate 5.1%Q) example_uri example_model incumbent_world)
  = Return false ∧
  metrics (data (candidate 5.1%Q)) !! "rmse" = Some 0.1%Q ∧
  metrics (data (candidate 5.1%Q)) !! "validation_rmse" = Some 0.1%Q.
Proof.
  split; [|split; reflexivity].
  eapply eq_trans.
  - apply (register_model_reads_test_rmse (candidate 5.1%Q) example_uri example_model
             incumbent_world); reflexivity.
  - reflexivity.
Defined.




(** ** Ranking runs by a metric *)

Global Instance metric_le_total key : Total (metric_le key).
Proof.
  intros r1 r2. unfold metric_le, metric_leb.
  destruct (metrics (data r1) !! key) as [a|], (metrics (data r2) !! key) as [b|];
    auto.
  rewrite !Qle_bool_iff. destruct (Qlt_le_dec a b) as [Hlt|Hle]; [left|by right].
  by apply Qlt_le_weak.
Qed.

Global Instance metric_le_trans key : Transitive (metric_le key).
Proof.
  intros r1 r2 r3. unfold metric_le, metric_leb.
  destruct (metrics (data r1) !! key) as [a|], (metrics (data r2) !! key) as [b|],
    (metrics (data r3) !! key) as [c|]; try done.
  rewrite !Qle_bool_iff. apply Qle_trans.
Qed.

Lemma ranked_sorted key e w : StronglySorted (metric_le key) (ranked key e w).
Proof. apply StronglySorted_merge_sort; apply _. Qed.

Lemma ranked_perm key e w : ranked key e w ≡ₚ pool e w.
Proof. apply merge_sort_Permutation. Qed.

Lemma StronglySorted_take {A} (R : relation A) n l :
  StronglySorted R l → StronglySorted R (take n l).
Proof.
  intros Hs. revert n. induction Hs as [|x l Hs IH Hx]; intros [|n]; simpl;
    try constructor; auto.
  apply Forall_take. done.
Qed.

Lemma StronglySorted_take_drop {A} (R : relation A) n l :
  StronglySorted R l → ∀ x y, x ∈ take n l → y ∈ drop n l → R x y.
Proof.
  intros Hs x y. rewrite <- (take_drop n l) in Hs.
  by apply StronglySorted_app_1_elem_of.
Qed.

Lemma elem_of_pool e w r :
  r ∈ pool e w ↔
  r ∈ runs w ∧ experiment_id (info r) = e ∧ lifecycle_stage (info r) = Active.
Proof.
  unfold pool. rewrite list_elem_of_filter. unfold in_experiment, visible.
  rewrite andb_true_iff, bool_decide_eq_true.
  destruct (lifecycle_stage (info r)); intuition congruence.
Qed.

(** ** Experiments *)

Lemma experiment_index_app name es x e :
  experiment_index name es = Some e → experiment_index name (es ++ [x]) = Some e.
Proof.
  unfold experiment_index. intros H.
  destruct (list_find (λ n, n = name) es) as [[i y]|] eqn:Hf; [|done].
  simpl in H. injection H as ->.
  erewrite list_find_app_l by done. done.
Qed.

Lemma experiment_index_last name es :
  experiment_index name es = None →
  experiment_index name (es ++ [name]) = Some (length es).
Proof.
  unfold experiment_index. intros H.
  destruct (list_find (λ n, n = name) es) as [[i y]|] eqn:Hf; [done|].
  rewrite list_find_app_r by done. simpl. rewrite decide_True by done.
  done.
Qed.

Lemma selection_started_answered uri sel w :
  faults w = [] →
  ∃ s, experiment_index sel (experiments (selection_started uri sel w)) = Some s ∧
       active_experiment (selection_started uri sel w) = Some s ∧
       runs (selection_started uri sel w) = runs w ∧
       active_run (selection_started uri sel w) = active_run w ∧
       registry (selection_started uri sel w) = registry w ∧
       faults (selection_started uri sel w) = [] ∧
       (∀ name e, experiment_index name (experiments w) = Some e →
                  experiment_index name (experiments (selection_started uri sel w)) = Some e).
Proof.
  intros Hf. unfold selection_started, set_experiment.
  rewrite service_call_answered by done. cbn [experiments with_tracking_uri].
  destruct (experiment_index sel (experiments w)) as [s|] eqn:Hs; simpl.
  - exists s. by repeat split.
  - exists (length (experiments w)). repeat split; try done.
    + by apply experiment_index_last.
    + intros name e. apply experiment_index_app.
Qed.

(** ** The candidates of [select_model] *)

Lemma search_runs_answered e n key w :
  faults w = [] →
  search_runs e ACTIVE_ONLY n key w = (Return (take n (ranked key e w)), w).
Proof. intros Hf. unfold search_runs. by rewrite service_call_answered. Qed.

Lemma get_experiment_answered name w :
  faults w = [] →
  get_experiment_by_name name w =
    (Return ((λ i, {| exp_id := i; exp_name := name |})
               <$> experiment_index name (experiments w)), w).
Proof. intros Hf. unfold get_experiment_by_name. by rewrite service_call_answered. Qed.

Lemma search_top_runs_answered n hpo w e :
  faults w = [] →
  experiment_index hpo (experiments w) = Some e →
  search_top_runs n hpo w = (Return (take n (ranked "rmse" e w)), w).
Proof.
  intros Hf He. unfold search_top_runs, bind.
  rewrite get_experiment_answered, He by done. simpl.
  by rewrite search_runs_answered.
Qed.

Lemma select_model_answered {L : Learner} input n uri hpo sel w e :
  faults w = [] →
  experiment_index hpo (experiments w) = Some e →
  select_model input n uri hpo sel w =
    (evaluate_top_runs input (take n (ranked "rmse" e w)) ;; select_best_run sel)
      (selection_started uri sel w).
Proof.
  intros Hf He.
  destruct (selection_started_answered uri sel w Hf)
    as (s & _ & _ & Hruns & _ & _ & Hf1 & Hidx).
  unfold select_model. unfold bind at 1, set_tracking_uri at 1.
  unfold bind at 1. fold (selection_started uri sel w).
  destruct (set_experiment sel (with_tracking_uri uri w)) as [[[]|ex] w1] eqn:Hset.
  - unfold selection_started. rewrite Hset. simpl.
    unfold bind at 1.
    assert (w1 = selection_started uri sel w) as ->
      by (unfold selection_started; by rewrite Hset).
    rewrite (search_top_runs_answered n hpo _ e) by auto.
    unfold ranked, pool. rewrite Hruns. done.
  - exfalso. revert Hset. unfold set_experiment.
    rewrite service_call_answered by done. by case_match.
Qed.

(** C7.  When every service call is answered and the search experiment
    exists, the candidates that [select_model] evaluates are the first
    [number_top_runs] of the active runs of that experiment ranked by
    increasing [rmse]: at most [number_top_runs] of them, in ascending order,
    and no run left out has a lower [rmse] than a run taken. *)
Theorem select_model_candidates {L : Learner} input n uri hpo sel w e :
  faults w = [] →
  experiment_index hpo (experiments w) = Some e →
  let cands := take n (ranked "rmse" e w) in
  let rest := drop n (ranked "rmse" e w) in
  select_model input n uri hpo sel w =
    (evaluate_top_runs input cands ;; select_best_run sel)
      (selection_started uri sel w) ∧
  length cands = n `min` length (pool e w) ∧
  StronglySorted (metric_le "rmse") cands ∧
  cands ++ rest ≡ₚ pool e w ∧
  (∀ c r, c ∈ cands → r ∈ rest → metric_le "rmse" c r).
Proof.
  intros Hf He cands rest. repeat split.
  - by apply select_model_answered.
  - unfold cands. rewrite length_take. f_equal.
    apply Permutation_length, ranked_perm.
  - apply StronglySorted_take, ranked_sorted.
  - unfold cands, rest. rewrite take_drop. apply ranked_perm.
  - intros c r. apply StronglySorted_take_drop, ranked_sorted.
Qed.

Lemma select_model_candidates_witness :
  select_model (L := toy_learner) "data" 3 example_uri "hpo" "select" five_runs_world =
    (evaluate_top_runs (L := toy_learner) "data"
       [hpo_run "d" "xgboost-regressor" "7" 2.0%Q;
        hpo_run "b" "xgboost-regressor" "5" 3.0%Q;
        hpo_run "a" "xgboost-regressor" "4" 4.0%Q] ;;
     select_best_run "select")
      (selection_started example_uri "select" five_runs_world) ∧
  length (take 3 (ranked "rmse" 1 five_runs_world)) = 3.
Proof.
  pose proof (select_model_candidates (L := toy_learner) "data" 3 example_uri "hpo"
                "select" five_runs_world 1 eq_refl eq_refl) as (Hsel & Hlen & _).
  split; [exact Hsel | exact Hlen].
Defined.

(** ** Evaluating one candidate *)

Lemma update_run_other id f rs : id ∉ run_ids rs → update_run id f rs = rs.
Proof.
  induction rs as [|r rs IH]; intros Hnot; [done|].
  unfold run_ids in Hnot. rewrite fmap_cons, not_elem_of_cons in Hnot.
  destruct Hnot as [Hr Hrs]. unfold update_run in *.
  rewrite fmap_cons, IH by done. by rewrite decide_False by done.
Qed.

Lemma update_run_new id f rs :
  id ∉ run_ids rs →
  ∀ r, run_id (info r) = id → update_run id f (r :: rs) = f r :: rs.
Proof.
  intros Hnot r Hr. unfold update_run. rewrite fmap_cons.
  fold (update_run id f rs). rewrite update_run_other by done.
  by rewrite decide_True.
Qed.

Lemma fresh_run_id rs : fresh (run_ids rs) ∉ run_ids rs.
Proof. apply infinite_is_fresh. Qed.

Lemma start_run_answered w :
  faults w = [] → active_run w = None →
  start_run w =
    (Return (fresh (run_ids (runs w))),
     with_runs (new_run (fresh (run_ids (runs w))) (default 0 (active_experiment w))
                  :: runs w)
               (Some (fresh (run_ids (runs w)))) w).
Proof.
  intros Hf Ha. unfold start_run. rewrite Ha.
  by rewrite service_call_answered.
Qed.

Lemma set_tag_active key value id w :
  faults w = [] → active_run w = Some id →
  set_tag key value w =
    (Return tt, with_runs (update_run id (add_tag key value) (runs w)) (Some id) w).
Proof.
  intros Hf Ha. unfold set_tag, bind, get_or_start_run. rewrite Ha.
  rewrite service_call_answered by done. by rewrite Ha.
Qed.

Lemma log_metric_active key value id w :
  faults w = [] → active_run w = Some id →
  log_metric key value w =
    (Return tt, with_runs (update_run id (add_metric key value) (runs w)) (Some id) w).
Proof.
  intros Hf Ha. unfold log_metric, bind, get_or_start_run. rewrite Ha.
  rewrite service_call_answered by done. by rewrite Ha.
Qed.

Lemma end_run_active s id w :
  faults w = [] → active_run w = Some id →
  end_run s w = (Return tt, with_runs (update_run id (with_status s) (runs w)) None w).
Proof.
  intros Hf Ha. unfold end_run. rewrite Ha.
  by rewrite service_call_answered.
Qed.

Ltac invert_errors He :=
  repeat match type of He with
         | obind ?o _ = Return _ =>
             let E := fresh "E" in
             destruct o eqn:E; cbn [obind] in He; [|discriminate He]
         end.

Section Evaluation.
Context {L : Learner}.

Lemma train_and_log_xgboost_logged input ps w v t :
  faults w = [] → active_run w = None →
  xgboost_errors input ps = Return (v, t) →
  train_and_log_xgboost input ps w
  = (Return tt, logged "xgboost-regressor" v t w).
Proof.
  intros Hf Ha He. unfold xgboost_errors in He. invert_errors He.
  injection He as -> ->.
  unfold train_and_log_xgboost, load_dataset_splits, autolog, bind, lift, ret.
  rewrite E, E0, E1. cbn [fst snd]. rewrite E2, E3, E4.
  unfold with_start_run, bind. rewrite start_run_answered by done.
  unfold try_finally.
  set (id := fresh (run_ids (runs w))).
  assert (id ∉ run_ids (runs w)) as Hid by apply fresh_run_id.
  erewrite set_tag_active by (simpl; done).
  cbn [runs with_runs]. rewrite (update_run_new id) by done.
  rewrite E5, E6.
  erewrite log_metric_active by (simpl; done).
  cbn [runs with_runs]. rewrite (update_run_new id) by done.
  rewrite E7.
  erewrite log_metric_active by (simpl; done).
  cbn [runs with_runs]. rewrite (update_run_new id) by done.
  erewrite end_run_active by (simpl; done).
  cbn [runs with_runs]. rewrite (update_run_new id) by done.
  reflexivity.
Qed.

Lemma train_and_log_random_forest_logged input ps w v t :
  faults w = [] → active_run w = None →
  random_forest_errors input ps = Return (v, t) →
  train_and_log_train_random_forest_regressor input ps w
  = (Return tt, logged "random-forest-regressor" v t w).
Proof.
  intros Hf Ha He. unfold random_forest_errors in He. invert_errors He.
  injection He as -> ->.
  unfold train_and_log_train_random_forest_regressor, load_dataset_splits,
    autolog, bind, lift, ret.
  rewrite E, E0, E1. cbn [fst snd].
  unfold with_start_run, bind. rewrite start_run_answered by done.
  unfold try_finally.
  set (id := fresh (run_ids (runs w))).
  assert (id ∉ run_ids (runs w)) as Hid by apply fresh_run_id.
  erewrite set_tag_active by (simpl; done).
  cbn [runs with_runs]. rewrite (update_run_new id) by done.
  rewrite E2, E3.
  erewrite log_metric_active by (simpl; done).
  cbn [runs with_runs]. rewrite (update_run_new id) by done.
  rewrite E4.
  erewrite log_metric_active by (simpl; done).
  cbn [runs with_runs]. rewrite (update_run_new id) by done.
  erewrite end_run_active by (simpl; done).
  cbn [runs with_runs]. rewrite (update_run_new id) by done.
  reflexivity.
Qed.
End Evaluation.

Section Selection.
Context {L : Learner}.

Lemma dispatch_lookup family :
  TRAIN_AND_LOG_FUNC !! family =
    if decide (family = "xgboost-regressor") then Some train_and_log_xgboost
    else if decide (family = "random-forest-regressor")
         then Some train_and_log_train_random_forest_regressor
         else None.
Proof.
  unfold TRAIN_AND_LOG_FUNC. rewrite lookup_insert.
  destruct (decide ("xgboost-regressor" = family)) as [<-|Hx].
  - by rewrite decide_True.
  - rewrite decide_False by done. rewrite lookup_insert.
    destruct (decide ("random-forest-regressor" = family)) as [<-|Hr].
    + by rewrite decide_True.
    + rewrite decide_False by done. apply lookup_empty.
Qed.

Lemma dispatch_logged family f input ps w v t :
  faults w = [] → active_run w = None →
  TRAIN_AND_LOG_FUNC !! family = Some f →
  measured_errors family input ps = Return (v, t) →
  f input ps w = (Return tt, logged family v t w).
Proof.
  intros Hf Ha Hd He. rewrite dispatch_lookup in Hd. unfold measured_errors in He.
  destruct (decide (family = "xgboost-regressor")) as [->|].
  - injection Hd as <-. by apply train_and_log_xgboost_logged.
  - destruct (decide (family = "random-forest-regressor")) as [->|]; [|done].
    injection Hd as <-. by apply train_and_log_random_forest_logged.
Qed.


End Selection.


(** ** The evaluation loop *)

Section Loop.
Context {L : Learner}.

Lemma evaluable_recognized input r : evaluable input r → recognized r.
Proof.
  intros (family & v & t & Ht & He). exists family. split; [done|].
  unfold measured_errors in He. repeat case_decide; auto. discriminate.
Qed.

Lemma evaluate_candidate_logged input r w family v t :
  faults w = [] → active_run w = None →
  tags (data r) !! "model" = Some family →
  measured_errors family input (params (data r)) = Return (v, t) →
  (family ⇐ getitem (tags (data r)) "model" ;
   train_and_log ⇐ getitem TRAIN_AND_LOG_FUNC family ;
   train_and_log input (params (data r))) w
  = (Return tt, logged family v t w).
Proof.
  intros Hf Ha Ht He. unfold bind, getitem. rewrite Ht. unfold ret at 1.
  destruct (TRAIN_AND_LOG_FUNC !! family) as [f|] eqn:Hd.
  - unfold ret at 1. by apply dispatch_logged.
  - rewrite dispatch_lookup in Hd. unfold measured_errors in He.
    repeat case_decide; discriminate.
Qed.

Lemma evaluate_top_runs_returns input cands w :
  faults w = [] → active_run w = None →
  Forall (evaluable input) cands →
  ∃ new, evaluate_top_runs input cands w
           = (Return tt, with_runs (new ++ runs w) None w) ∧
         length new = length cands ∧
         Forall (evaluated_in (default 0 (active_experiment w))) new.
Proof.
  intros Hf Ha Hall. revert w Hf Ha.
  induction Hall as [|c cs Hc Hcs IH]; intros w Hf Ha.
  - exists []. split; [|done]. unfold evaluate_top_runs. simpl. unfold ret.
    f_equal. destruct w; unfold with_runs; simpl in *; by subst.
  - pose proof (evaluable_recognized _ _ Hc) as Hrec.
    destruct Hc as (family & v & t & Ht & He).
    destruct (IH (logged family v t w)) as (new & Hev & Hlen & Hnew); [done..|].
    exists (new ++ [logged_run (fresh (run_ids (runs w)))
                      (default 0 (active_experiment w)) family v t]).
    split; [|split].
    + unfold evaluate_top_runs in *. cbn [for_each]. unfold bind at 1.
      rewrite (evaluate_candidate_logged input c w family v t) by done.
      rewrite Hev. cbn [runs logged with_runs]. by rewrite <- app_assoc.
    + rewrite length_app. simpl. lia.
    + apply Forall_app. split; [exact Hnew|]. constructor; [|done].
      unfold evaluated_in; simpl. split; [done|]. split; [done|].
      split; [rewrite lookup_insert_eq; eauto|].
      destruct Hrec as (fam' & Ht' & Hfam). rewrite Ht in Ht'. injection Ht' as <-.
      exists family. split; [|done]. simpl. by rewrite lookup_insert_eq.
Qed.

Lemma evaluate_unrecognized input r rest w :
  ¬ recognized r →
  ∃ key, evaluate_top_runs input (r :: rest) w = (Raise (KeyError key), w).
Proof.
  intros Hnot. unfold evaluate_top_runs. cbn [for_each].
  unfold bind, getitem.
  destruct (tags (data r) !! "model") as [family|] eqn:Ht; [|by eexists].
  unfold ret at 1.
  destruct (TRAIN_AND_LOG_FUNC !! family) as [f|] eqn:Hd; [|by eexists].
  exfalso. apply Hnot. exists family. split; [done|].
  rewrite dispatch_lookup in Hd. repeat case_decide; auto. discriminate.
Qed.

Lemma evaluate_some_unrecognized input cands w :
  Exists (λ r, ¬ recognized r) cands →
  ∃ e w', evaluate_top_runs input cands w = (Raise e, w').
Proof.
  intros Hex. revert w. induction cands as [|c cs IH]; intros w.
  - by apply Exists_nil in Hex.
  - apply Exists_cons in Hex as [Hnot|Hex].
    + destruct (evaluate_unrecognized input c cs w Hnot) as (key & Hraise). eauto.
    + unfold evaluate_top_runs in *. cbn [for_each]. unfold bind at 1.
      match goal with |- context [match ?m w with _ => _ end] =>
        destruct (m w) as [[[]|e] w1] end; [by apply IH|by eauto].
Qed.

Lemma select_model_after_search input n uri hpo sel w :
  select_model input n uri hpo sel w =
    match select_candidates n uri hpo sel w with
    | (Return cands, w1) =>
        (evaluate_top_runs input cands ;; select_best_run sel) w1
    | (Raise e, w1) => (Raise e, w1)
    end.
Proof.
  unfold select_model, select_candidates, bind.
  destruct (set_tracking_uri uri w) as [[[]|e0] w0]; [|done].
  destruct (set_experiment sel w0) as [[[]|e1] w1]; [|done].
  by destruct (search_top_runs n hpo w1) as [[cands|e2] w2].
Qed.

End Loop.

(** ** The run that [select_model] returns *)

Lemma metric_le_refl key r : metric_le key r r.
Proof. destruct (total (metric_le key) r r); done. Qed.

Lemma ranked_head key e w best l :
  take 1 (ranked key e w) = best :: l →
  best ∈ pool e w ∧ ∀ r, r ∈ pool e w → metric_le key best r.
Proof.
  intros Ht. pose proof (ranked_sorted key e w) as Hs.
  pose proof (ranked_perm key e w) as Hp.
  destruct (ranked key e w) as [|x rs]; [done|]. injection Ht as -> _.
  apply StronglySorted_cons in Hs as [Hall _]. split.
  - rewrite <- Hp. left.
  - intros r Hr. rewrite <- Hp in Hr.
    apply elem_of_cons in Hr as [->|Hr]; [apply metric_le_refl|].
    by eapply Forall_forall in Hall.
Qed.

Lemma metric_le_lowest key best r x :
  metric_le key best r → metrics (data r) !! key = Some x →
  ∃ b, metrics (data best) !! key = Some b ∧ (b <= x)%Q.
Proof.
  unfold metric_le, metric_leb. intros Hle Hx. rewrite Hx in Hle.
  destruct (metrics (data best) !! key) as [b|]; [|done].
  exists b. split; [done|]. by apply Qle_bool_iff.
Qed.

Lemma bind_returns {A B} (m : Mlflow A) (k : A → Mlflow B) w b w' :
  bind m k w = (Return b, w') →
  ∃ a w1, m w = (Return a, w1) ∧ k a w1 = (Return b, w').
Proof.
  unfold bind. destruct (m w) as [[a|e] w1]; [by eauto|discriminate].
Qed.

Lemma get_experiment_returns name w x w1 :
  get_experiment_by_name name w = (Return x, w1) →
  x = (λ i, {| exp_id := i; exp_name := name |})
        <$> experiment_index name (experiments w) ∧
  runs w1 = runs w ∧ experiments w1 = experiments w.
Proof.
  unfold get_experiment_by_name, service_call.
  destruct (faults w) as [|[e|] fs]; intros [= <- <-]; done.
Qed.

Lemma search_runs_returns e n key w l w1 :
  search_runs e ACTIVE_ONLY n key w = (Return l, w1) →
  l = take n (ranked key e w) ∧ runs w1 = runs w ∧ experiments w1 = experiments w.
Proof.
  unfold search_runs, service_call.
  destruct (faults w) as [|[ex|] fs]; intros [= <- <-]; done.
Qed.

Lemma select_best_run_lowest sel w best w' :
  select_best_run sel w = (Return best, w') →
  ∃ s, experiment_index sel (experiments w) = Some s ∧
       runs w' = runs w ∧ experiments w' = experiments w ∧
       best ∈ pool s w ∧ ∀ r, r ∈ pool s w → metric_le "test_rmse" best r.
Proof.
  unfold select_best_run. intros Hsel.
  apply bind_returns in Hsel as (x & w1 & Hx & Hsel).
  apply get_experiment_returns in Hx as (-> & Hr1 & He1).
  apply bind_returns in Hsel as (s & w2 & Hs & Hsel).
  destruct (experiment_index sel (experiments w)) as [s'|] eqn:Hidx; [|done].
  injection Hs as <- <-.
  apply bind_returns in Hsel as (l & w3 & Hl & Hsel).
  apply search_runs_returns in Hl as (-> & Hr3 & He3).
  unfold first_item in Hsel.
  destruct (take 1 (ranked "test_rmse" s' w1)) as [|b l] eqn:Ht; [done|].
  injection Hsel as -> ->.
  assert (pool s' w1 = pool s' w) as Hpool by (unfold pool; by rewrite Hr1).
  apply ranked_head in Ht. rewrite Hpool in Ht.
  exists s'. repeat split; try congruence; apply Ht.
Qed.

Lemma select_best_run_answered sel w s :
  faults w = [] →
  experiment_index sel (experiments w) = Some s →
  pool s w ≠ [] →
  ∃ best, select_best_run sel w = (Return best, w).
Proof.
  intros Hf Hs Hne. unfold select_best_run, bind.
  rewrite get_experiment_answered, Hs by done. simpl.
  rewrite search_runs_answered by done.
  pose proof (ranked_perm "test_rmse" s w) as Hp.
  destruct (ranked "test_rmse" s w) as [|x rs]; [|by eexists].
  apply Permutation_nil_l in Hp. by symmetry in Hp.
Qed.



Lemma five_runs_scenario :
  let r := select_model (L := toy_learner) "data" 5 example_uri "hpo" "select"
             five_runs_world in
  fst r = Return (logged_run "0" 2 "xgboost-regressor" 3.8%Q 3.8%Q) ∧
  (λ x, (experiment_id (info x), tags (data x) !! "model",
         metrics (data x) !! "test_rmse")) <$> take 5 (runs (snd r))
  = [(2, Some "random-forest-regressor", Some 5.2%Q);
     (2, Some "random-forest-regressor", Some 4.5%Q);
     (2, Some "xgboost-regressor", Some 4.1%Q);
     (2, Some "xgboost-regressor", Some 3.9%Q);
     (2, Some "xgboost-regressor", Some 3.8%Q)] ∧
  drop 5 (runs (snd r)) = runs five_runs_world.
Proof. vm_compute. repeat split. Qed.





Lemma unknown_family_scenario :
  select_model (L := toy_learner) "data" 5 example_uri "hpo" "select"
    unknown_family_world
  = (Raise (KeyError "lightgbm-regressor"),
     selection_started example_uri "select" unknown_family_world).
Proof. vm_compute. reflexivity. Qed.

(** Whenever [select_model] returns, every candidate it evaluated carried
    the tag of a known family. *)
Lemma select_model_returns_recognized {L : Learner} input n uri hpo sel w best w' :
  select_model input n uri hpo sel w = (Return best, w') →
  ∃ cands w1, select_candidates n uri hpo sel w = (Return cands, w1) ∧
              Forall recognized cands.
Proof.
  rewrite select_model_after_search.
  destruct (select_candidates n uri hpo sel w) as [[cands|e] w1]; [|done].
  intros Hret. exists cands, w1. split; [done|].
  apply Forall_forall. intros r Hr.
  destruct (tags (data r) !! "model") as [family|] eqn:Ht.
  - destruct (decide (family = "xgboost-regressor")) as [->|Hx];
      [exists "xgboost-regressor"; auto|].
    destruct (decide (family = "random-forest-regressor")) as [->|Hf];
      [exists "random-forest-regressor"; auto|].
    exfalso.
    destruct (evaluate_some_unrecognized input cands w1) as (e & w2 & Hraise).
    + apply Exists_exists. exists r. split; [done|].
      intros (fam & Ht' & [->| ->]); congruence.
    + unfold bind in Hret. by rewrite Hraise in Hret.
  - exfalso.
    destruct (evaluate_some_unrecognized input cands w1) as (e & w2 & Hraise).
    + apply Exists_exists. exists r. split; [done|].
      intros (fam & Ht' & _); congruence.
    + unfold bind in Hret. by rewrite Hraise in Hret.
Qed.

(** ** The run behind a registered version *)

Lemma until_slash_app id rest :
  until_slash id = id → until_slash (id +:+ String "/" rest) = id.
Proof.
  induction id as [|c id IH]; simpl; [done|].
  destruct (Ascii.eqb c "/"); [discriminate|].
  intros [= Hid]. f_equal. by apply IH.
Qed.

(** The version registered for a run points back to it, as long as the
    identifier of the run holds no slash. *)
Lemma registered_version_run_id run vs st :
  until_slash (run_id (info run)) = run_id (info run) →
  mv_run_id (registered_version run vs st) = run_id (info run).
Proof.
  intros Hid. simpl. unfold run_id_of_uri, model_uri_of. simpl.
  by apply (until_slash_app _ "model").
Qed.

(** * Further properties *)

(** ** [register_model]: repeated calls and failures after the lookup *)






(** X2.  The recovery of [register_model] covers the lookup of the
    Production version only.  Once the lookup has answered with a Production
    version, an exception raised while its run is fetched leaves
    [register_model] as it is, a [RestException] too, and the service is as
    it was. *)
Theorem register_model_get_run_error run uri name w production w1 pv e w2 :
  get_latest_versions name [Production] (with_tracking_uri uri w)
    = (Return production, w1) →
  last production = Some pv →
  get_run (mv_run_id pv) w1 = (Raise e, w2) →
  register_model run uri name w = (Raise e, w2) ∧ same_service w w2.
Proof.
  intros Hl Hlast Hg. split.
  - unfold register_model. unfold bind at 1. unfold set_tracking_uri at 1.
    unfold bind at 1. unfold try_except at 1. rewrite Hl.
    assert (truthy production = true) as -> by (by destruct production).
    unfold bind at 1. unfold bind at 1. unfold last_item. rewrite Hlast.
    unfold ret at 1. unfold bind at 1. by rewrite Hg.
  - revert Hl Hg. unfold get_latest_versions, get_run, service_call,
      same_service, same_tracking.
    repeat (case_match; simplify_eq/=); intros; simplify_eq/=; done.
Qed.

Lemma register_model_get_run_error_witness :
  register_model (candidate 4.9%Q) example_uri example_model orphan_world
  = (Raise (RestException RESOURCE_DOES_NOT_EXIST),
     with_tracking_uri example_uri orphan_world) ∧
  same_service orphan_world (with_tracking_uri example_uri orphan_world).
Proof.
  eapply (register_model_get_run_error (candidate 4.9%Q) example_uri example_model
            orphan_world); reflexivity.
Defined.



(** ** The evaluation routines when the learner fails *)

Section Failures.
Context {L : Learner}.

Lemma load_dataset_splits_state input w :
  snd (load_dataset_splits input w) = w.
Proof.
  unfold load_dataset_splits, bind, lift, ret.
  repeat (case_match; simplify_eq/=); done.
Qed.

(** X4.  The splits are loaded before a run is started.  When loading them
    fails, either evaluation routine raises the failure and leaves the
    tracking store as it was: no run is created for the candidate. *)
Theorem train_and_log_missing_split family f input ps w e :
  TRAIN_AND_LOG_FUNC !! family = Some f →
  fst (load_dataset_splits input w) = Raise e →
  f input ps w = (Raise e, w).
Proof.
  intros Hd Hl. pose proof (load_dataset_splits_state input w) as Hs.
  destruct (load_dataset_splits input w) as [o w1] eqn:Hload.
  simpl in Hl, Hs. subst o w1.
  rewrite dispatch_lookup in Hd. repeat case_decide; simplify_eq.
  - unfold train_and_log_xgboost, autolog. unfold bind at 1. unfold ret at 1.
    unfold bind at 1. by rewrite Hload.
  - unfold train_and_log_train_random_forest_regressor, autolog.
    unfold bind at 1. unfold ret at 1. unfold bind at 1. by rewrite Hload.
Qed.

(** X5.  Training happens inside the run.  When the splits load and
    convert but [xgb.train] raises, [train_and_log_xgboost] raises that
    exception and leaves exactly one new run: closed, marked FAILED, tagged
    with the family, with no metric. *)
Theorem train_and_log_xgboost_training_fails input ps w
    X_train y_train X_val y_val X_test y_test train_data validation_data test_data e :
  faults w = [] → active_run w = None →
  load_pickle (input +:+ "/train.pkl") = Return (X_train, y_train) →
  load_pickle (input +:+ "/validation.pkl") = Return (X_val, y_val) →
  load_pickle (input +:+ "/test.pkl") = Return (X_test, y_test) →
  xgb_DMatrix X_train y_train = Return train_data →
  xgb_DMatrix X_val y_val = Return validation_data →
  xgb_DMatrix X_test y_test = Return test_data →
  xgb_train ps train_data validation_data = Raise e →
  train_and_log_xgboost input ps w =
    (Raise e,
     with_runs (failed_run (fresh (run_ids (runs w))) (default 0 (active_experiment w))
                  "xgboost-regressor" ∅ :: runs w) None w).
Proof.
  intros Hf Ha E E0 E1 E2 E3 E4 E5.
  unfold train_and_log_xgboost, load_dataset_splits, autolog, bind, lift, ret.
  rewrite E, E0, E1. cbn [fst snd]. rewrite E2, E3, E4.
  unfold with_start_run, bind. rewrite start_run_answered by done.
  unfold try_finally.
  set (id := fresh (run_ids (runs w))).
  assert (id ∉ run_ids (runs w)) as Hid by apply fresh_run_id.
  erewrite set_tag_active by (simpl; done).
  cbn [runs with_runs]. rewrite (update_run_new id) by done.
  rewrite E5.
  erewrite end_run_active by (simpl; done).
  cbn [runs with_runs]. rewrite (update_run_new id) by done.
  reflexivity.
Qed.


End Failures.

Lemma train_and_log_missing_split_witness :
  train_and_log_train_random_forest_regressor (L := no_test_split_learner)
    "data" {[ "max_depth" := "6" ]} five_runs_world
  = (Raise (OSError "data/test.pkl"), five_runs_world).
Proof.
  apply (train_and_log_missing_split (L := no_test_split_learner)
           "random-forest-regressor"); reflexivity.
Defined.

Lemma train_and_log_xgboost_training_fails_witness :
  train_and_log_xgboost (L := failing_learner) "data" {[ "max_depth" := "4" ]}
    five_runs_world
  = (Raise (ValueError "xgboost training failed"),
     with_runs (failed_run "0" 0 "xgboost-regressor" ∅ :: runs five_runs_world)
       None five_runs_world).
Proof.
  apply (train_and_log_xgboost_training_fails (L := failing_learner) "data"
           {[ "max_depth" := "4" ]} five_runs_world
           true true true true true false tt tt tt); reflexivity.
Defined.


(** ** [select_model] on a store that cannot be searched *)

Lemma experiment_index_app_None name es x :
  experiment_index name es = None → x ≠ name →
  experiment_index name (es ++ [x]) = None.
Proof.
  unfold experiment_index. intros H Hx.
  destruct (list_find (λ n, n = name) es) as [[i y]|] eqn:Hf; [done|].
  destruct (list_find (λ n, n = name) (es ++ [x])) as [[i y]|] eqn:Hf'; [|done].
  exfalso. apply list_find_Some in Hf' as (Hl & -> & _).
  apply list_find_None in Hf. rewrite Forall_forall in Hf.
  apply lookup_app_Some in Hl as [Hl|[_ Hl]].
  - apply list_elem_of_lookup_2 in Hl. by apply Hf in Hl.
  - apply list_lookup_singleton_Some in Hl as [_ ->]. done.
Qed.

Lemma select_model_no_search_experiment {L : Learner} input n uri hpo sel w :
  faults w = [] →
  experiment_index hpo (experiments w) = None →
  hpo ≠ sel →
  select_model input n uri hpo sel w
  = (Raise (AttributeError "experiment_id"), selection_started uri sel w).
Proof.
  intros Hf Hnone Hne.
  destruct (selection_started_answered uri sel w Hf)
    as (s & Hs & Hact & Hruns & _ & Hreg & Hf1 & _).
  rewrite select_model_after_search. unfold select_candidates.
  unfold bind at 1. unfold set_tracking_uri at 1. unfold bind at 1.
  assert (set_experiment sel (with_tracking_uri uri w)
          = (Return tt, selection_started uri sel w)) as ->.
  { unfold selection_started, set_experiment.
    rewrite service_call_answered by done. by case_match. }
  unfold search_top_runs, bind. rewrite get_experiment_answered by done.
  assert (experiment_index hpo (experiments (selection_started uri sel w)) = None)
    as ->; [|done].
  unfold selection_started, set_experiment. rewrite service_call_answered by done.
  cbn [experiments with_tracking_uri].
  destruct (experiment_index sel (experiments w)); simpl; [done|].
  apply experiment_index_app_None; [done|congruence].
Qed.

(** X7.  The selection experiment is set up before the search experiment is
    looked up.  When no experiment has the search name, [select_model] fails
    with an [AttributeError] on [experiment_id]; by then the selection
    experiment exists and is the active one, and no run was added and no
    model registered. *)
Theorem select_model_missing_search_experiment {L : Learner}
    input n uri hpo sel w :
  faults w = [] →
  experiment_index hpo (experiments w) = None →
  hpo ≠ sel →
  ∃ w' s,
    select_model input n uri hpo sel w = (Raise (AttributeError "experiment_id"), w') ∧
    experiment_index sel (experiments w') = Some s ∧
    active_experiment w' = Some s ∧
    runs w' = runs w ∧ registry w' = registry w.
Proof.
  intros Hf Hnone Hne.
  destruct (selection_started_answered uri sel w Hf)
    as (s & Hs & Hact & Hruns & _ & Hreg & Hf1 & _).
  exists (selection_started uri sel w), s. split; [|done].
  by apply select_model_no_search_experiment.
Qed.

Lemma select_model_missing_search_experiment_witness :
  ∃ w' s,
    select_model (L := toy_learner) "data" 5 example_uri "hpo" "select" no_hpo_world
      = (Raise (AttributeError "experiment_id"), w') ∧
    experiment_index "select" (experiments w') = Some s ∧
    active_experiment w' = Some s ∧
    runs w' = runs no_hpo_world ∧ registry w' = registry no_hpo_world.
Proof.
  apply (select_model_missing_search_experiment (L := toy_learner) "data" 5
           example_uri "hpo" "select" no_hpo_world); [reflexivity|reflexivity|].
  discriminate.
Defined.

(** X8.  The best run is taken as the first result of the final search, with
    no check that there is one.  When the search experiment yields no
    candidate (it has no active run, or no result is asked for) and the
    selection experiment has no active run either, [select_model] fails with
    an [IndexError]. *)
Theorem select_model_nothing_to_select {L : Learner} input n uri hpo sel w e :
  faults w = [] →
  experiment_index hpo (experiments w) = Some e →
  take n (ranked "rmse" e w) = [] →
  (∀ s, experiment_index sel (experiments (selection_started uri sel w)) = Some s →
        pool s w = []) →
  select_model input n uri hpo sel w
  = (Raise IndexError, selection_started uri sel w).
Proof.
  intros Hf He Hcands Hempty.
  rewrite (select_model_answered input n uri hpo sel w e), Hcands by done.
  destruct (selection_started_answered uri sel w Hf)
    as (s & Hs & _ & Hruns & _ & _ & Hf1 & _).
  unfold bind at 1. unfold evaluate_top_runs. cbn [for_each]. unfold ret at 1.
  unfold select_best_run, bind.
  rewrite get_experiment_answered, Hs by done. simpl.
  rewrite search_runs_answered by done.
  assert (ranked "test_rmse" s (selection_started uri sel w) = []) as ->; [|done].
  apply Permutation_nil_r. rewrite ranked_perm.
  unfold pool. rewrite Hruns. fold (pool s w). by rewrite (Hempty s).
Qed.

Lemma select_model_nothing_to_select_witness :
  select_model (L := toy_learner) "data" 5 example_uri "hpo" "select" empty_hpo_world
  = (Raise IndexError, selection_started example_uri "select" empty_hpo_world).
Proof.
  apply (select_model_nothing_to_select (L := toy_learner) "data" 5 example_uri
           "hpo" "select" empty_hpo_world 1); [reflexivity..|].
  intros s _. reflexivity.
Defined.

(** ** What [select_model] leaves untouched *)

Section Keeps.
Context {X : Type} (f : World → X).
Hypothesis f_faults : ∀ fs w, f (with_faults fs w) = f w.

Lemma keeps_ret {A} (a : A) : keeps f (ret a).
Proof. by intros w. Qed.

Lemma keeps_raise {A} e : keeps f (raise (A := A) e).
Proof. by intros w. Qed.

Lemma keeps_lift {A} (o : Outcome A) : keeps f (lift o).
Proof. by intros w. Qed.

Lemma keeps_getitem {V} (d : gmap string V) key : keeps f (getitem d key).
Proof. intros w. unfold getitem. by destruct (d !! key). Qed.

Lemma keeps_bind {A B} (m : Mlflow A) (k : A → Mlflow B) :
  keeps f m → (∀ a, keeps f (k a)) → keeps f (bind m k).
Proof.
  intros Hm Hk w. unfold bind. specialize (Hm w).
  destruct (m w) as [[a|e] w1]; simpl in *; [|done].
  by rewrite Hk.
Qed.

Lemma keeps_try_finally {A} (m : Mlflow A) (h : bool → Mlflow unit) :
  keeps f m → (∀ b, keeps f (h b)) → keeps f (try_finally m h).
Proof.
  intros Hm Hh w. unfold try_finally. specialize (Hm w).
  destruct (m w) as [[a|e] w1]; simpl in *.
  - specialize (Hh false w1). destruct (h false w1) as [[[]|e] w2]; simpl in *;
      congruence.
  - specialize (Hh true w1). destruct (h true w1) as [[[]|e'] w2]; simpl in *;
      congruence.
Qed.

Lemma keeps_for_each {A} (l : list A) (body : A → Mlflow unit) :
  (∀ x, keeps f (body x)) → keeps f (for_each l body).
Proof.
  intros Hb. induction l as [|x l IH]; simpl; [apply keeps_ret|].
  apply keeps_bind; auto.
Qed.

Lemma keeps_service_call {A} (op : Mlflow A) :
  keeps f op → keeps f (service_call op).
Proof.
  intros Hop w. unfold service_call.
  destruct (faults w) as [|[e|] fs]; simpl; [apply Hop|apply f_faults|].
  by rewrite Hop, f_faults.
Qed.

End Keeps.

Ltac keeps_step :=
  first
    [ apply keeps_ret | apply keeps_raise | apply keeps_lift | apply keeps_getitem
    | apply keeps_bind; [|intros ?] | apply keeps_try_finally; [|intros ?]
    | apply keeps_for_each; intros ?
    | apply keeps_service_call; [by intros|] ].

Lemma keeps_registry_start_run : keeps registry start_run.
Proof.
  intros w. unfold start_run. destruct (active_run w); [done|].
  by apply (keeps_service_call registry).
Qed.

Lemma keeps_registry_get_or_start_run : keeps registry get_or_start_run.
Proof.
  intros w. unfold get_or_start_run. destruct (active_run w); [done|].
  apply keeps_registry_start_run.
Qed.

Lemma keeps_registry_set_tag key value : keeps registry (set_tag key value).
Proof.
  unfold set_tag. apply keeps_bind; [apply keeps_registry_get_or_start_run|].
  intros id. by apply keeps_service_call.
Qed.

Lemma keeps_registry_log_metric key value : keeps registry (log_metric key value).
Proof.
  unfold log_metric. apply keeps_bind; [apply keeps_registry_get_or_start_run|].
  intros id. by apply keeps_service_call.
Qed.

Lemma keeps_registry_end_run s : keeps registry (end_run s).
Proof.
  intros w. unfold end_run. destruct (active_run w); [|done].
  by apply (keeps_service_call registry).
Qed.

Lemma keeps_registry_with_start_run {A} (body : Mlflow A) :
  keeps registry body → keeps registry (with_start_run body).
Proof.
  intros Hb. unfold with_start_run.
  apply keeps_bind; [apply keeps_registry_start_run|]. intros _.
  apply keeps_try_finally; [done|]. intros b. apply keeps_registry_end_run.
Qed.

Lemma keeps_registry_set_experiment name : keeps registry (set_experiment name).
Proof.
  unfold set_experiment. apply keeps_service_call; [done|].
  intros w. by case_match.
Qed.

Lemma keeps_registry_get_experiment name :
  keeps registry (get_experiment_by_name name).
Proof. unfold get_experiment_by_name. by apply keeps_service_call. Qed.

Lemma keeps_registry_search_runs e v n key :
  keeps registry (search_runs e v n key).
Proof. unfold search_runs. by apply keeps_service_call. Qed.

Section KeepsRegistry.
Context {L : Learner}.

Lemma keeps_registry_load input : keeps registry (load_dataset_splits input).
Proof. unfold load_dataset_splits. repeat keeps_step. Qed.

Lemma keeps_registry_xgboost input ps :
  keeps registry (train_and_log_xgboost input ps).
Proof.
  unfold train_and_log_xgboost, autolog.
  apply keeps_bind; [apply keeps_ret|]. intros _.
  apply keeps_bind; [apply keeps_registry_load|].
  intros [[[[[X_train y_train] X_val] y_val] X_test] y_test].
  do 3 (apply keeps_bind; [apply keeps_lift|]; intros ?).
  apply keeps_registry_with_start_run.
  apply keeps_bind; [apply keeps_registry_set_tag|]. intros _.
  do 2 (apply keeps_bind; [apply keeps_lift|]; intros ?).
  apply keeps_bind; [apply keeps_registry_log_metric|]. intros _.
  apply keeps_bind; [apply keeps_lift|]. intros ?.
  apply keeps_registry_log_metric.
Qed.

Lemma keeps_registry_random_forest input ps :
  keeps registry (train_and_log_train_random_forest_regressor input ps).
Proof.
  unfold train_and_log_train_random_forest_regressor, autolog.
  apply keeps_bind; [apply keeps_ret|]. intros _.
  apply keeps_bind; [apply keeps_registry_load|].
  intros [[[[[X_train y_train] X_val] y_val] X_test] y_test].
  apply keeps_registry_with_start_run.
  apply keeps_bind; [apply keeps_registry_set_tag|]. intros _.
  do 2 (apply keeps_bind; [apply keeps_lift|]; intros ?).
  apply keeps_bind; [apply keeps_registry_log_metric|]. intros _.
  apply keeps_bind; [apply keeps_lift|]. intros ?.
  apply keeps_registry_log_metric.
Qed.

Lemma keeps_registry_evaluate input cands :
  keeps registry (evaluate_top_runs input cands).
Proof.
  unfold evaluate_top_runs. apply keeps_for_each. intros run.
  apply keeps_bind; [apply keeps_getitem|]. intros family.
  intros w. unfold bind, getitem.
  destruct (TRAIN_AND_LOG_FUNC !! family) as [g|] eqn:Hd; [|done].
  unfold ret at 1. rewrite dispatch_lookup in Hd.
  repeat case_decide; simplify_eq.
  - apply keeps_registry_xgboost.
  - apply keeps_registry_random_forest.
Qed.

Lemma keeps_registry_select_model input n uri hpo sel :
  keeps registry (select_model input n uri hpo sel).
Proof.
  unfold select_model.
  apply keeps_bind; [by intros w|]. intros _.
  apply keeps_bind; [apply keeps_registry_set_experiment|]. intros _.
  apply keeps_bind.
  { unfold search_top_runs.
    apply keeps_bind; [apply keeps_registry_get_experiment|]. intros x.
    apply keeps_bind; [by destruct x|]. intros e.
    apply keeps_registry_search_runs. }
  intros cands.
  apply keeps_bind; [apply keeps_registry_evaluate|]. intros _.
  unfold select_best_run.
  apply keeps_bind; [apply keeps_registry_get_experiment|]. intros x.
  apply keeps_bind; [by destruct x|]. intros e.
  apply keeps_bind; [apply keeps_registry_search_runs|]. intros best.
  by destruct best.
Qed.

(** X9.  Selection never promotes.  On every path, whatever the service and
    the learner answer, [select_model] leaves the model registry exactly as
    it found it. *)
Theorem select_model_keeps_registry input n uri hpo sel w :
  registry (snd (select_model input n uri hpo sel w)) = registry w.
Proof. apply keeps_registry_select_model. Qed.

End KeepsRegistry.

(** ** [select_model] and the runs of earlier selections *)

Section Earlier.
Context {L : Learner}.

Lemma evaluate_top_runs_returns_with (P : Q → Prop) input cands w :
  faults w = [] → active_run w = None →
  Forall (evaluable_with P input) cands →
  ∃ new, evaluate_top_runs input cands w
           = (Return tt, with_runs (new ++ runs w) None w) ∧
         Forall (λ r, ∃ t, metrics (data r) !! "test_rmse" = Some t ∧ P t) new.
Proof.
  intros Hf Ha Hall. revert w Hf Ha.
  induction Hall as [|c cs Hc Hcs IH]; intros w Hf Ha.
  - exists []. split; [|done]. unfold evaluate_top_runs. simpl. unfold ret.
    f_equal. destruct w; unfold with_runs; simpl in *; by subst.
  - destruct Hc as (family & v & t & Ht & He & HP).
    destruct (IH (logged family v t w)) as (new & Hev & Hnew); [done..|].
    exists (new ++ [logged_run (fresh (run_ids (runs w)))
                      (default 0 (active_experiment w)) family v t]).
    split.
    + unfold evaluate_top_runs in *. cbn [for_each]. unfold bind at 1.
      rewrite (evaluate_candidate_logged input c w family v t) by done.
      rewrite Hev. cbn [runs logged with_runs]. by rewrite <- app_assoc.
    + apply Forall_app. split; [exact Hnew|]. constructor; [|done].
      exists t. split; [|done]. simpl. by rewrite lookup_insert_eq.
Qed.

(** X10.  The winner is searched in the whole selection experiment, not
    among the runs just created.  When the selection experiment already
    holds an active run whose [test_rmse] is below the test error measured
    for every candidate, [select_model] evaluates the candidates and then
    returns a run that was in the store before the call. *)
Theorem select_model_returns_earlier_run input n uri hpo sel w e s r0 x0 :
  faults w = [] → active_run w = None →
  experiment_index hpo (experiments w) = Some e →
  experiment_index sel (experiments w) = Some s →
  r0 ∈ pool s w →
  metrics (data r0) !! "test_rmse" = Some x0 →
  Forall (evaluable_with (λ t, (x0 < t)%Q) input) (take n (ranked "rmse" e w)) →
  ∃ best w' b,
    select_model input n uri hpo sel w = (Return best, w') ∧
    best ∈ runs w ∧
    metrics (data best) !! "test_rmse" = Some b ∧ (b <= x0)%Q ∧
    length (runs w') = length (take n (ranked "rmse" e w)) + length (runs w).
Proof.
  intros Hf Ha He Hs Hr0 Hx0 Hall.
  rewrite (select_model_answered input n uri hpo sel w e) by done.
  destruct (selection_started_answered uri sel w Hf)
    as (s' & Hs' & Hact & Hruns & Har & _ & Hf1 & Hidx).
  rewrite (Hidx _ _ Hs) in Hs'. injection Hs' as <-.
  set (w1 := selection_started uri sel w) in *.
  destruct (evaluate_top_runs_returns_with (λ t, (x0 < t)%Q) input
              (take n (ranked "rmse" e w)) w1)
    as (new & Hev & Hnew); [done|congruence|done|].
  destruct (evaluate_top_runs_returns input (take n (ranked "rmse" e w)) w1)
    as (new' & Hev' & Hlen & _); [done|congruence| |].
  { eapply Forall_impl; [exact Hall|].
    intros c (family & v & t & ? & ? & _). by exists family, v, t. }
  rewrite Hev in Hev'. injection Hev' as Heq. apply app_inv_tail in Heq as <-.
  set (w2 := with_runs (new ++ runs w1) None w1) in *.
  assert (r0 ∈ pool s w2) as Hr0'.
  { apply elem_of_pool in Hr0 as (Hin & ? & ?). apply elem_of_pool.
    repeat split; [|done..]. simpl. rewrite Hruns. apply elem_of_app. by right. }
  destruct (select_best_run_answered sel w2 s) as (best & Hbest); [done| |..].
  { simpl. by apply Hidx. }
  { intros Hnil. rewrite Hnil in Hr0'. by apply elem_of_nil in Hr0'. }
  destruct (select_best_run_lowest sel w2 best w2 Hbest)
    as (s' & Hs' & _ & _ & Hin & Hlow).
  assert (s' = s) as ->.
  { simpl in Hs'. rewrite (Hidx _ _ Hs) in Hs'. congruence. }
  destruct (metric_le_lowest "test_rmse" best r0 x0 (Hlow r0 Hr0') Hx0)
    as (b & Hb & Hle).
  exists best, w2, b. split; [unfold bind; by rewrite Hev|].
  split; [|split; [done|split; [done|]]].
  - apply elem_of_pool in Hin as (Hin & _). simpl in Hin.
    apply elem_of_app in Hin as [Hin|Hin]; [|by rewrite <- Hruns].
    exfalso. rewrite Forall_forall in Hnew.
    destruct (Hnew best Hin) as (t & Ht & Hlt). rewrite Hb in Ht.
    injection Ht as <-. by apply (Qlt_not_le x0 b).
  - simpl. rewrite length_app, Hruns. lia.
Qed.

End Earlier.

Lemma select_model_returns_earlier_run_witness :
  ∃ best w' b,
    select_model (L := toy_learner) "data" 5 example_uri "hpo" "select"
      earlier_selection_world = (Return best, w') ∧
    best ∈ runs earlier_selection_world ∧
    metrics (data best) !! "test_rmse" = Some b ∧ (b <= 1.0)%Q ∧
    length (runs w') = 5 + 6.
Proof.
  apply (select_model_returns_earlier_run (L := toy_learner) "data" 5 example_uri
           "hpo" "select" earlier_selection_world 1 2
           (finished_run "earlier" 2
              [("validation_rmse", 1.0%Q); ("test_rmse", 1.0%Q)] []
              [("model", "xgboost-regressor")]) 1.0%Q).
  - reflexivity.
  - reflexivity.
  - reflexivity.
  - reflexivity.
  - vm_compute. left.
  - reflexivity.
  - vm_compute. repeat constructor.
    all: eexists _, _, _; split; [|split]; vm_compute; reflexivity.
Defined.

(** ** The hyperparameter search *)

Section TrainProperties.
Context {L : Learner} {T : Search}.

Lemma argmin_is_Some trials : trials ≠ [] → is_Some (argmin trials).
Proof.
  destruct trials as [|t rest]; [done|]. intros _. simpl.
  destruct (argmin rest); eauto.
Qed.

Lemma with_runs_same w : active_run w = None → with_runs (runs w) None w = w.
Proof. intros Ha. destruct w; unfold with_runs; simpl in *; by subst. Qed.

Lemma fmin_trials_logged family fn space n trials w :
  logs_trial family fn →
  faults w = [] → active_run w = None →
  ∃ new trials',
    fmin_trials fn space n trials w
      = (Return trials', with_runs (new ++ runs w) None w) ∧
    length new = n ∧ length trials' = length trials + n ∧
    Forall (search_run_in (default 0 (active_experiment w)) family) new.
Proof.
  intros Hfn. revert trials w. induction n as [|n IH]; intros trials w Hf Ha.
  - exists [], trials. simpl. unfold ret. rewrite with_runs_same by done.
    repeat split; try done; lia.
  - cbn [fmin_trials]. unfold bind.
    destruct (Hfn (tpe_suggest space trials) w Hf Ha) as (rmse & ->).
    set (r := searched_run _ _ family rmse).
    destruct (IH (trials ++ [(tpe_suggest space trials, rmse)])
                (with_runs (r :: runs w) None w))
      as (new & trials' & Hev & Hlen & Hlen' & Hnew); [done..|].
    exists (new ++ [r]), trials'. cbn [loss]. rewrite Hev.
    cbn [runs with_runs active_experiment] in *.
    split; [by rewrite <- app_assoc|].
    split; [rewrite length_app; simpl; lia|].
    split; [rewrite length_app in Hlen'; simpl in Hlen'; lia|].
    apply Forall_app. split; [done|]. constructor; [|done].
    unfold search_run_in, r. simpl.
    split; [done|]. split; [done|]. split; [done|].
    split; [by rewrite insert_empty|].
    rewrite dom_insert_L, dom_empty_L. set_solver.
Qed.

Lemma fmin_logged family fn space n w :
  logs_trial family fn → 0 < n →
  faults w = [] → active_run w = None →
  ∃ new best,
    fmin fn space n w = (Return best, with_runs (new ++ runs w) None w) ∧
    length new = n ∧
    Forall (search_run_in (default 0 (active_experiment w)) family) new.
Proof.
  intros Hfn Hn Hf Ha. unfold fmin, bind.
  destruct (fmin_trials_logged family fn space n [] w Hfn Hf Ha)
    as (new & trials' & -> & Hlen & Hlen' & Hnew).
  destruct (argmin_is_Some trials') as [best ->].
  { intros ->. simpl in Hlen'. lia. }
  by exists new, best.1.
Qed.

Lemma search_run_recognized e family r :
  family = "xgboost-regressor" ∨ family = "random-forest-regressor" →
  search_run_in e family r → recognized r.
Proof.
  intros Hfam (_ & _ & _ & Ht & _). exists family. split; [|done].
  by rewrite Ht, lookup_singleton_eq.
Qed.

End TrainProperties.

Section TrainRuns.
Context {L : Learner} {T : Search}.

Lemma train_xgboost_logged X_train y_train X_val y_val train_data validation_data w :
  faults w = [] → active_run w = None →
  xgb_DMatrix X_train y_train = Return train_data →
  xgb_DMatrix X_val y_val = Return validation_data →
  (∀ p, ∃ booster rmse,
     xgb_train_point p train_data validation_data = Return booster ∧
     xgb_rmse y_val booster validation_data = Return rmse) →
  ∃ new, train_xgboost X_train y_train X_val y_val w
           = (Return tt, with_runs (new ++ runs w) None w) ∧
         length new = 10 ∧
         Forall (search_run_in (default 0 (active_experiment w)) "xgboost-regressor")
           new.
Proof.
  intros Hf Ha Etd Evd Hfit.
  unfold train_xgboost, autolog. cbv zeta.
  unfold bind at 1. unfold ret at 1.
  unfold bind at 1. unfold lift at 1. rewrite Etd.
  unfold bind at 1. unfold lift at 1. rewrite Evd.
  unfold bind at 1.
  match goal with |- context [fmin ?fn ?space 10 w] =>
    destruct (fmin_logged "xgboost-regressor" fn space 10 w)
      as (new & best & -> & Hlen & Hnew); [|lia|done|done|by exists new] end.
  intros p w0 Hf0 Ha0. destruct (Hfit p) as (booster & rmse & E1 & E2).
  exists rmse. unfold bind at 1.
  unfold with_start_run, bind. rewrite start_run_answered by done.
  unfold try_finally.
  set (id := fresh (run_ids (runs w0))).
  assert (id ∉ run_ids (runs w0)) as Hid by apply fresh_run_id.
  erewrite set_tag_active by (simpl; done).
  cbn [runs with_runs]. rewrite (update_run_new id) by done.
  unfold lift. rewrite E1, E2.
  erewrite log_metric_active by (simpl; done).
  cbn [runs with_runs]. rewrite (update_run_new id) by done.
  unfold ret at 1.
  erewrite end_run_active by (simpl; done).
  cbn [runs with_runs]. rewrite (update_run_new id) by done.
  reflexivity.
Qed.

Lemma train_random_forest_logged X_train y_train X_val y_val w :
  faults w = [] → active_run w = None →
  (∀ p, ∃ rf rmse,
     rf_fit_point p X_train y_train = Return rf ∧
     rf_rmse y_val rf X_val = Return rmse) →
  ∃ new, train_random_forest_regressor X_train y_train X_val y_val w
           = (Return tt, with_runs (new ++ runs w) None w) ∧
         length new = 10 ∧
         Forall (search_run_in (default 0 (active_experiment w))
                   "random-forest-regressor") new.
Proof.
  intros Hf Ha Hfit.
  unfold train_random_forest_regressor, autolog. cbv zeta.
  unfold bind at 1. unfold ret at 1.
  unfold bind at 1.
  match goal with |- context [fmin ?fn ?space 10 w] =>
    destruct (fmin_logged "random-forest-regressor" fn space 10 w)
      as (new & best & -> & Hlen & Hnew); [|lia|done|done|by exists new] end.
  intros p w0 Hf0 Ha0. destruct (Hfit p) as (rf & rmse & E1 & E2).
  exists rmse. unfold bind at 1.
  unfold with_start_run, bind. rewrite start_run_answered by done.
  unfold try_finally.
  set (id := fresh (run_ids (runs w0))).
  assert (id ∉ run_ids (runs w0)) as Hid by apply fresh_run_id.
  erewrite set_tag_active by (simpl; done).
  cbn [runs with_runs]. rewrite (update_run_new id) by done.
  unfold lift. rewrite E1, E2.
  erewrite log_metric_active by (simpl; done).
  cbn [runs with_runs]. rewrite (update_run_new id) by done.
  unfold ret at 1.
  erewrite end_run_active by (simpl; done).
  cbn [runs with_runs]. rewrite (update_run_new id) by done.
  reflexivity.
Qed.

Lemma train_started input out uri experiment w :
  faults w = [] →
  train input out uri experiment w =
    (train_split ⇐ lift (load_pickle (input +:+ "/train.pkl")) ;
     validation_split ⇐ lift (load_pickle (input +:+ "/validation.pkl")) ;
     train_xgboost train_split.1 train_split.2
       validation_split.1 validation_split.2 ;;
     train_random_forest_regressor train_split.1 train_split.2
       validation_split.1 validation_split.2)
      (selection_started uri experiment w).
Proof.
  intros Hf.
  destruct (selection_started_answered uri experiment w Hf)
    as (s & _ & _ & _ & _ & _ & Hf1 & _).
  unfold train. unfold bind at 1. unfold set_tracking_uri at 1.
  unfold bind at 1.
  assert (set_experiment experiment (with_tracking_uri uri w)
          = (Return tt, selection_started uri experiment w)) as ->.
  { unfold selection_started, set_experiment.
    rewrite service_call_answered by done. by case_match. }
  unfold bind at 1. unfold get_tracking_uri at 1.
  unfold bind at 1. unfold print at 1. unfold ret at 1.
  unfold bind at 1. unfold list_experiments.
  rewrite service_call_answered by done.
  unfold bind at 1. unfold print at 1. unfold ret at 1. done.
Qed.

Lemma train_succeeds input out uri experiment w
    X_train y_train X_val y_val train_data validation_data :
  faults w = [] → active_run w = None →
  load_pickle (input +:+ "/train.pkl") = Return (X_train, y_train) →
  load_pickle (input +:+ "/validation.pkl") = Return (X_val, y_val) →
  xgb_DMatrix X_train y_train = Return train_data →
  xgb_DMatrix X_val y_val = Return validation_data →
  (∀ p, ∃ booster rmse,
     xgb_train_point p train_data validation_data = Return booster ∧
     xgb_rmse y_val booster validation_data = Return rmse) →
  (∀ p, ∃ rf rmse,
     rf_fit_point p X_train y_train = Return rf ∧
     rf_rmse y_val rf X_val = Return rmse) →
  ∃ rf_runs xgb_runs s,
    train input out uri experiment w
      = (Return tt,
         with_runs (rf_runs ++ xgb_runs ++ runs w) None
           (selection_started uri experiment w)) ∧
    length rf_runs = 10 ∧ length xgb_runs = 10 ∧
    experiment_index experiment
      (experiments (selection_started uri experiment w)) = Some s ∧
    Forall (search_run_in s "random-forest-regressor") rf_runs ∧
    Forall (search_run_in s "xgboost-regressor") xgb_runs.
Proof.
  intros Hf Ha Etr Eva Etd Evd Hx Hr.
  rewrite train_started by done.
  destruct (selection_started_answered uri experiment w Hf)
    as (s & Hs & Hact & Hruns & Har & Hreg & Hf1 & _).
  set (w1 := selection_started uri experiment w) in *.
  unfold bind at 1. unfold lift at 1. rewrite Etr.
  unfold bind at 1. unfold lift at 1. rewrite Eva. cbn [fst snd].
  unfold bind at 1.
  destruct (train_xgboost_logged X_train y_train X_val y_val train_data
              validation_data w1) as (xs & -> & Hlx & Hxs); [done|congruence|done..|].
  destruct (train_random_forest_logged X_train y_train X_val y_val
              (with_runs (xs ++ runs w1) None w1)) as (rs & -> & Hlr & Hrs);
    [done..|].
  rewrite Hact in Hxs. cbn [active_experiment with_runs default] in Hxs, Hrs.
  rewrite Hact in Hrs. cbn [default] in Hrs. unfold id in Hxs, Hrs.
  exists rs, xs, s. split; [|done].
  cbn [runs with_runs]. rewrite Hruns. reflexivity.
Qed.


End TrainRuns.


Section TrainFailures.
Context {L : Learner} {T : Search}.

Lemma keeps_registry_fmin_trials fn space n trials :
  (∀ p, keeps registry (fn p)) → keeps registry (fmin_trials fn space n trials).
Proof.
  intros Hfn. revert trials. induction n as [|n IH]; intros trials; simpl.
  - apply keeps_ret.
  - apply keeps_bind; [apply Hfn|]. intros r. apply IH.
Qed.

Lemma keeps_registry_fmin fn space n :
  (∀ p, keeps registry (fn p)) → keeps registry (fmin fn space n).
Proof.
  intros Hfn. unfold fmin.
  apply keeps_bind; [by apply keeps_registry_fmin_trials|].
  intros trials. destruct (argmin trials); [apply keeps_ret|apply keeps_raise].
Qed.

Lemma keeps_registry_train_xgboost X_train y_train X_val y_val :
  keeps registry (train_xgboost X_train y_train X_val y_val).
Proof.
  unfold train_xgboost, autolog. cbv zeta.
  apply keeps_bind; [apply keeps_ret|]. intros _.
  do 2 (apply keeps_bind; [apply keeps_lift|]; intros ?).
  apply keeps_bind; [|intros; apply keeps_ret].
  apply keeps_registry_fmin. intros p.
  apply keeps_bind; [|intros; apply keeps_ret].
  apply keeps_registry_with_start_run.
  apply keeps_bind; [apply keeps_registry_set_tag|]. intros _.
  do 2 (apply keeps_bind; [apply keeps_lift|]; intros ?).
  apply keeps_bind; [apply keeps_registry_log_metric|]. intros _.
  apply keeps_ret.
Qed.

Lemma keeps_registry_train_random_forest X_train y_train X_val y_val :
  keeps registry (train_random_forest_regressor X_train y_train X_val y_val).
Proof.
  unfold train_random_forest_regressor, autolog. cbv zeta.
  apply keeps_bind; [apply keeps_ret|]. intros _.
  apply keeps_bind; [|intros; apply keeps_ret].
  apply keeps_registry_fmin. intros p.
  apply keeps_bind; [|intros; apply keeps_ret].
  apply keeps_registry_with_start_run.
  apply keeps_bind; [apply keeps_registry_set_tag|]. intros _.
  do 2 (apply keeps_bind; [apply keeps_lift|]; intros ?).
  apply keeps_bind; [apply keeps_registry_log_metric|]. intros _.
  apply keeps_ret.
Qed.

Lemma keeps_registry_train input out uri experiment :
  keeps registry (train input out uri experiment).
Proof.
  unfold train.
  apply keeps_bind; [by intros w|]. intros _.
  apply keeps_bind; [apply keeps_registry_set_experiment|]. intros _.
  apply keeps_bind; [by intros w|]. intros u.
  apply keeps_bind; [apply keeps_ret|]. intros _.
  apply keeps_bind; [unfold list_experiments; by apply keeps_service_call|].
  intros es.
  apply keeps_bind; [apply keeps_ret|]. intros _.
  do 2 (apply keeps_bind; [apply keeps_lift|]; intros ?).
  apply keeps_bind; [apply keeps_registry_train_xgboost|]. intros _.
  apply keeps_registry_train_random_forest.
Qed.

(** X12.  Training never registers a model.  On every path, whatever the
    service, the search and the learner answer, [train] leaves the model
    registry exactly as it found it. *)
Theorem train_keeps_registry input out uri experiment w :
  registry (snd (train input out uri experiment w)) = registry w.
Proof. apply keeps_registry_train. Qed.

(** X13.  [train] needs the train and validation splits only, and loads
    them after the experiment is set up.  When one of the two cannot be
    loaded, it raises the failure of the first that fails; the experiment
    exists by then and is the active one, and no run was started. *)
Theorem train_missing_split input out uri experiment w e :
  faults w = [] →
  load_pickle (input +:+ "/train.pkl") = Raise e ∨
  (∃ split, load_pickle (input +:+ "/train.pkl") = Return split ∧
            load_pickle (input +:+ "/validation.pkl") = Raise e) →
  ∃ w' s,
    train input out uri experiment w = (Raise e, w') ∧
    experiment_index experiment (experiments w') = Some s ∧
    active_experiment w' = Some s ∧
    runs w' = runs w.
Proof.
  intros Hf Hload. rewrite train_started by done.
  destruct (selection_started_answered uri experiment w Hf)
    as (s & Hs & Hact & Hruns & _).
  exists (selection_started uri experiment w), s. split; [|done].
  unfold bind, lift. destruct Hload as [->|(split & -> & ->)]; done.
Qed.

Lemma fmin_first_trial_raises fn space n w e w' :
  fn (tpe_suggest space []) w = (Raise e, w') →
  fmin fn space (S n) w = (Raise e, w').
Proof.
  intros Hfn. unfold fmin. unfold bind at 1. cbn [fmin_trials].
  unfold bind at 1. by rewrite Hfn.
Qed.

(** X14.  A failing trial ends the whole training.  When the splits load
    and convert but [xgb.train] raises at the first point that the search
    suggests, [train] raises that exception: the run of the trial is left
    closed and marked FAILED, with the family tag and no metric, no further
    point is tried and the random forest search is never started. *)
Theorem train_first_trial_fails input out uri experiment w
    X_train y_train X_val y_val train_data validation_data e :
  faults w = [] → active_run w = None →
  load_pickle (input +:+ "/train.pkl") = Return (X_train, y_train) →
  load_pickle (input +:+ "/validation.pkl") = Return (X_val, y_val) →
  xgb_DMatrix X_train y_train = Return train_data →
  xgb_DMatrix X_val y_val = Return validation_data →
  (∀ space, xgb_train_point (tpe_suggest space []) train_data validation_data
            = Raise e) →
  ∃ w' s id,
    train input out uri experiment w = (Raise e, w') ∧
    experiment_index experiment (experiments w') = Some s ∧
    runs w' = failed_run id s "xgboost-regressor" ∅ :: runs w ∧
    active_run w' = None.
Proof.
  intros Hf Ha Etr Eva Etd Evd Hfail. rewrite train_started by done.
  destruct (selection_started_answered uri experiment w Hf)
    as (s & Hs & Hact & Hruns & Har & _ & Hf1 & _).
  set (w1 := selection_started uri experiment w) in *.
  assert (active_run w1 = None) as Ha1 by congruence.
  unfold bind at 1. unfold lift at 1. rewrite Etr.
  unfold bind at 1. unfold lift at 1. rewrite Eva. cbn [fst snd].
  unfold bind at 1. unfold train_xgboost, autolog. cbv zeta.
  unfold bind at 1. unfold ret at 1.
  unfold bind at 1. unfold lift at 1. rewrite Etd.
  unfold bind at 1. unfold lift at 1. rewrite Evd.
  unfold bind at 1.
  set (id := fresh (run_ids (runs w1))).
  assert (id ∉ run_ids (runs w1)) as Hid by apply fresh_run_id.
  erewrite (fmin_first_trial_raises _ _ 9); cycle 1.
  { unfold bind at 1.
    unfold with_start_run, bind. rewrite start_run_answered by done.
    unfold try_finally. fold id.
    erewrite set_tag_active by (simpl; done).
    cbn [runs with_runs]. rewrite (update_run_new id) by done.
    unfold lift. rewrite Hfail.
    erewrite end_run_active by (simpl; done).
    cbn [runs with_runs]. rewrite (update_run_new id) by done.
    reflexivity. }
  eexists _, s, id. split; [reflexivity|].
  cbn [runs with_runs experiments active_run]. rewrite Hruns, Hact.
  by repeat split.
Qed.

End TrainFailures.

Lemma train_missing_split_witness :
  ∃ w' s,
    train (T := no_validation_split_search) "data" None example_uri "hpo" fresh_world
      = (Raise (OSError "data/validation.pkl"), w') ∧
    experiment_index "hpo" (experiments w') = Some s ∧
    active_experiment w' = Some s ∧
    runs w' = runs fresh_world.
Proof.
  apply (train_missing_split (T := no_validation_split_search) "data" None
           example_uri "hpo" fresh_world); [reflexivity|].
  right. exists (tt, tt). split; reflexivity.
Defined.

Lemma train_first_trial_fails_witness :
  ∃ w' s id,
    train (T := failing_search) "data" None example_uri "hpo" fresh_world
      = (Raise (ValueError "xgboost training failed"), w') ∧
    experiment_index "hpo" (experiments w') = Some s ∧
    runs w' = failed_run id s "xgboost-regressor" ∅ :: runs fresh_world ∧
    active_run w' = None.
Proof.
  apply (train_first_trial_fails (T := failing_search) "data" None example_uri
           "hpo" fresh_world true true true true tt tt); try reflexivity.
Defined.

(** ** The entry points *)

Section EntryPointProperties.
Context {L : Learner} {T : Search}.

(** X15.  What the printed line means.  Whenever the entry point of
    select_and_register.py gets to print, the line tells what happened to
    the registry: after "updated" the model has exactly one more version, in
    Staging, and after "not updated" the registry is as it was. *)
Theorem main_message_tells_registry input environ w msg w' :
  select_and_register_main input environ w = (Return msg, w') →
  let name := getenv environ "MLFLOW_MODEL_NAME" "nyc-bus-delay-predictor" in
  (msg = "model " +:+ name +:+ " updated" ∧
   ∃ mv, registry w' = <[name := versions_of name w ++ [mv]]> (registry w) ∧
         version mv = next_version (versions_of name w) ∧
         current_stage mv = Staging) ∨
  (msg = "model " +:+ name +:+ " not updated" ∧ registry w' = registry w).
Proof.
  unfold select_and_register_main. cbv zeta. intros Hmain.
  apply bind_returns in Hmain as (best & w1 & Hsel & Hmain).
  apply bind_returns in Hmain as (rc & w2 & Hreg & Hmain).
  injection Hmain as <- <-.
  assert (registry w1 = registry w) as Hk.
  { pose proof (keeps_registry_select_model input 5
                  (getenv environ "MLFLOW_TRACKING_URI" "http://127.0.0.1:5000")
                  (getenv environ "MLFLOW_HPO_EXPERIMENT_NAME"
                     "nyc-bus-delay-predictor-hpo")
                  (getenv environ "MLFLOW_SELECT_EXPERIMENT_NAME"
                     "nyc-bus-delay-predictor-select") w) as Hkeep.
    by rewrite Hsel in Hkeep. }
  set (name := getenv environ "MLFLOW_MODEL_NAME" "nyc-bus-delay-predictor") in *.
  set (uri := getenv environ "MLFLOW_TRACKING_URI" "http://127.0.0.1:5000") in *.
  destruct (register_model_paths best uri name w1) as [[Hs Hne]|(w1' & Hs & Hr)].
  - rewrite Hreg in Hs, Hne. simpl in *. destruct rc; [done|].
    right. split; [done|]. destruct Hs as [Hs _]. congruence.
  - rewrite Hreg in Hr.
    destruct (stage_candidate_paths best name w1') as [_ Hp].
    rewrite <- Hr in Hp. simpl in Hp.
    destruct Hp as [[_ [e ?]]|[[_ [e ?]]|[Hp Hrc]]]; [done..|].
    injection Hrc as ->. left. split; [done|].
    assert (versions_of name w1' = versions_of name w) as Hv.
    { unfold versions_of. destruct Hs as [-> _]. by rewrite Hk. }
    rewrite Hv in Hp. destruct Hs as [Hs _]. rewrite Hs, Hk in Hp.
    by eexists.
Qed.

End EntryPointProperties.

Lemma main_message_tells_registry_witness :
  let w' := snd (select_and_register_main (L := toy_learner) "data" example_environ
                   five_runs_world) in
  ("model nyc-bus-delay-predictor updated"
     = "model " +:+ "nyc-bus-delay-predictor" +:+ " updated" ∧
   ∃ mv, registry w'
           = <[ "nyc-bus-delay-predictor" :=
                  versions_of "nyc-bus-delay-predictor" five_runs_world ++ [mv] ]>
               (registry five_runs_world) ∧
         version mv = next_version (versions_of "nyc-bus-delay-predictor"
                                      five_runs_world) ∧
         current_stage mv = Staging) ∨
  ("model nyc-bus-delay-predictor updated"
     = "model " +:+ "nyc-bus-delay-predictor" +:+ " not updated" ∧
   registry w' = registry five_runs_world).
Proof.
  apply (main_message_tells_registry (L := toy_learner) "data" example_environ
           five_runs_world "model nyc-bus-delay-predictor updated").
  vm_compute. reflexivity.
Defined.

Section Pipeline.
Context {L : Learner} {T : Search}.

Lemma select_model_succeeds input n uri hpo sel w e :
  faults w = [] → active_run w = None →
  experiment_index hpo (experiments w) = Some e →
  0 < n → pool e w ≠ [] →
  Forall (evaluable input) (take n (ranked "rmse" e w)) →
  ∃ best new s,
    let w' := with_runs (new ++ runs w) None (selection_started uri sel w) in
    select_model input n uri hpo sel w = (Return best, w') ∧
    experiment_index sel (experiments w') = Some s ∧
    best ∈ pool s w' ∧
    (∀ r, r ∈ pool s w' → metric_le "test_rmse" best r) ∧
    length new = length (take n (ranked "rmse" e w)).
Proof.
  intros Hf Ha He Hn Hpool Hall.
  rewrite (select_model_answered input n uri hpo sel w e) by done.
  destruct (selection_started_answered uri sel w Hf)
    as (s & Hs & Hact & Hruns & Har & _ & Hf1 & _).
  set (w1 := selection_started uri sel w) in *.
  destruct (evaluate_top_runs_returns input (take n (ranked "rmse" e w)) w1)
    as (new & Hev & Hlen & Hnew); [done|congruence|done|].
  rewrite Hact in Hnew. simpl in Hnew. rewrite Hruns in Hev.
  set (w2 := with_runs (new ++ runs w) None w1) in *.
  assert (pool s w2 ≠ []) as Hne.
  { destruct new as [|r new'].
    - exfalso. simpl in Hlen. symmetry in Hlen. apply length_zero_iff_nil in Hlen.
      pose proof (ranked_perm "rmse" e w) as Hp.
      destruct (ranked "rmse" e w) as [|x rs].
      + apply Permutation_nil_l in Hp. by symmetry in Hp.
      + destruct n; [lia|done].
    - apply Forall_cons in Hnew as [(He1 & Hl1 & _) _].
      assert (r ∈ pool s w2) as Hin
        by (apply elem_of_pool; repeat split; [left|done..]).
      intros Hnil. rewrite Hnil in Hin. by apply elem_of_nil in Hin. }
  destruct (select_best_run_answered sel w2 s) as (best & Hbest); [done..|].
  destruct (select_best_run_lowest sel w2 best w2 Hbest)
    as (s' & Hs' & _ & _ & Hin & Hlow).
  assert (s' = s) as -> by (simpl in Hs'; congruence).
  exists best, new, s. cbv zeta. fold w2. repeat split; try done.
  unfold bind. by rewrite Hev.
Qed.



Lemma selection_started_index_None uri sel w name :
  faults w = [] →
  experiment_index name (experiments w) = None → name ≠ sel →
  experiment_index name (experiments (selection_started uri sel w)) = None.
Proof.
  intros Hf Hnone Hne.
  unfold selection_started, set_experiment. rewrite service_call_answered by done.
  cbn [experiments with_tracking_uri].
  destruct (experiment_index sel (experiments w)); simpl; [done|].
  apply experiment_index_app_None; [done|congruence].
Qed.

(** X17.  The two entry points do not agree on the name of the search
    experiment.  With neither MLFLOW_EXPERIMENT_NAME nor
    MLFLOW_HPO_EXPERIMENT_NAME set, train.py logs its runs to
    "nyc-bus-delay-predictor" while select_and_register.py searches
    "nyc-bus-delay-predictor-hpo": on a store that has no experiment of the
    latter name, a training that succeeds is followed by a selection that
    fails with an [AttributeError], and nothing is registered. *)
Theorem default_experiment_names_differ input output environ w
    X_train y_train X_val y_val train_data validation_data :
  environ !! "MLFLOW_EXPERIMENT_NAME" = None →
  environ !! "MLFLOW_HPO_EXPERIMENT_NAME" = None →
  getenv environ "MLFLOW_SELECT_EXPERIMENT_NAME" "nyc-bus-delay-predictor-select"
    ≠ "nyc-bus-delay-predictor-hpo" →
  experiment_index "nyc-bus-delay-predictor-hpo" (experiments w) = None →
  faults w = [] → active_run w = None →
  load_pickle (input +:+ "/train.pkl") = Return (X_train, y_train) →
  load_pickle (input +:+ "/validation.pkl") = Return (X_val, y_val) →
  xgb_DMatrix X_train y_train = Return train_data →
  xgb_DMatrix X_val y_val = Return validation_data →
  (∀ p, ∃ booster rmse,
     xgb_train_point p train_data validation_data = Return booster ∧
     xgb_rmse y_val booster validation_data = Return rmse) →
  (∀ p, ∃ rf rmse,
     rf_fit_point p X_train y_train = Return rf ∧
     rf_rmse y_val rf X_val = Return rmse) →
  ∃ w1 w2 s,
    train_main input output environ w = (Return tt, w1) ∧
    experiment_index "nyc-bus-delay-predictor" (experiments w1) = Some s ∧
    length (runs w1) = 20 + length (runs w) ∧
    select_and_register_main input environ w1
      = (Raise (AttributeError "experiment_id"), w2) ∧
    registry w2 = registry w.
Proof.
  intros Henv1 Henv2 Hsel Hnone Hf Ha Etr Eva Etd Evd Hx Hr.
  set (uri := getenv environ "MLFLOW_TRACKING_URI" "http://127.0.0.1:5000").
  destruct (train_succeeds input output uri "nyc-bus-delay-predictor" w
              X_train y_train X_val y_val train_data validation_data)
    as (rs & xs & s & Htrain & Hlr & Hlx & Hs & Hrs & Hxs); [done..|].
  destruct (selection_started_answered uri "nyc-bus-delay-predictor" w Hf)
    as (s0 & _ & _ & _ & _ & Hreg & Hf1 & _).
  set (w0 := selection_started uri "nyc-bus-delay-predictor" w) in *.
  set (w1 := with_runs (rs ++ xs ++ runs w) None w0) in *.
  set (sel := getenv environ "MLFLOW_SELECT_EXPERIMENT_NAME"
                "nyc-bus-delay-predictor-select") in *.
  exists w1, (selection_started uri sel w1), s.
  split; [|split; [done|split; [|split]]].
  - unfold train_main, getenv. rewrite Henv1. exact Htrain.
  - cbn [runs w1 with_runs]. rewrite !length_app. lia.
  - unfold select_and_register_main. cbv zeta. fold uri sel.
    unfold getenv at 1. rewrite Henv2. cbn [default]. unfold bind at 1.
    rewrite select_model_no_search_experiment; [done|done| |].
    + cbn [experiments w1 with_runs].
      apply selection_started_index_None; [done..|discriminate].
    + intros Heq. by apply Hsel.
  - destruct (selection_started_answered uri sel w1) as (s1 & _ & _ & _ & _ & -> & _);
      [done|]. done.
Qed.

End Pipeline.


Lemma default_experiment_names_differ_witness :
  ∃ w1 w2 s,
    train_main (T := toy_search) "data" None ∅ fresh_world = (Return tt, w1) ∧
    experiment_index "nyc-bus-delay-predictor" (experiments w1) = Some s ∧
    length (runs w1) = 20 + length (runs fresh_world) ∧
    select_and_register_main (L := toy_learner) "data" ∅ w1
      = (Raise (AttributeError "experiment_id"), w2) ∧
    registry w2 = registry fresh_world.
Proof.
  apply (default_experiment_names_differ (T := toy_search) "data" None ∅ fresh_world
           tt tt tt tt tt tt); try reflexivity.
  - vm_compute. discriminate.
  - intros p. eexists _, _. split; reflexivity.
  - intros p. eexists _, _. split; reflexivity.
Defined.

Section AgreedNames.
Context {L : Learner} {T : Search}.

(** X18.  With the two entry points pointed at the same experiment, the
    pipeline goes through.  When every call succeeds, the runs already in
    the store carry known family tags, the learner can evaluate any
    parameters and the model has no Production version, [train] followed by
    the entry point of select_and_register.py leaves twenty runs of the
    search and five of the selection, prints "updated" and registers one
    version in Staging. *)
Theorem pipeline_with_agreed_names input output environ w
    X_train y_train X_val y_val train_data validation_data :
  let name := getenv environ "MLFLOW_MODEL_NAME" "nyc-bus-delay-predictor" in
  getenv environ "MLFLOW_EXPERIMENT_NAME" "nyc-bus-delay-predictor"
    = getenv environ "MLFLOW_HPO_EXPERIMENT_NAME" "nyc-bus-delay-predictor-hpo" →
  faults w = [] → active_run w = None →
  Forall recognized (runs w) →
  production_versions name w = [] →
  load_pickle (input +:+ "/train.pkl") = Return (X_train, y_train) →
  load_pickle (input +:+ "/validation.pkl") = Return (X_val, y_val) →
  xgb_DMatrix X_train y_train = Return train_data →
  xgb_DMatrix X_val y_val = Return validation_data →
  (∀ p, ∃ booster rmse,
     xgb_train_point p train_data validation_data = Return booster ∧
     xgb_rmse y_val booster validation_data = Return rmse) →
  (∀ p, ∃ rf rmse,
     rf_fit_point p X_train y_train = Return rf ∧
     rf_rmse y_val rf X_val = Return rmse) →
  (∀ family ps,
     family = "xgboost-regressor" ∨ family = "random-forest-regressor" →
     ∃ v t, measured_errors family input ps = Return (v, t)) →
  ∃ w1 w2 mv,
    train_main input output environ w = (Return tt, w1) ∧
    length (runs w1) = 20 + length (runs w) ∧
    select_and_register_main input environ w1
      = (Return ("model " +:+ name +:+ " updated"), w2) ∧
    length (runs w2) = 5 + length (runs w1) ∧
    versions_of name w2 = versions_of name w ++ [mv] ∧
    current_stage mv = Staging.
Proof.
  intros name Hnames Hf Ha Hrec Hnone Etr Eva Etd Evd Hx Hr Hlearn.
  set (uri := getenv environ "MLFLOW_TRACKING_URI" "http://127.0.0.1:5000").
  set (hpo := getenv environ "MLFLOW_HPO_EXPERIMENT_NAME"
                "nyc-bus-delay-predictor-hpo") in *.
  set (sel := getenv environ "MLFLOW_SELECT_EXPERIMENT_NAME"
                "nyc-bus-delay-predictor-select").
  destruct (train_succeeds input output uri hpo w
              X_train y_train X_val y_val train_data validation_data)
    as (rs & xs & s & Htrain & Hlr & Hlx & Hs & Hrs & Hxs); [done..|].
  destruct (selection_started_answered uri hpo w Hf)
    as (s0 & _ & _ & Hruns0 & Har0 & Hreg0 & Hf0 & _).
  set (w0 := selection_started uri hpo w) in *.
  set (w1 := with_runs (rs ++ xs ++ runs w) None w0) in *.
  assert (Forall recognized (rs ++ xs ++ runs w)) as Hrec1.
  { rewrite !Forall_app. repeat split; [| |done].
    - eapply Forall_impl; [exact Hrs|]. intros r. apply search_run_recognized. auto.
    - eapply Forall_impl; [exact Hxs|]. intros r. apply search_run_recognized. auto. }
  assert (rs ⊆ pool s w1) as Hsub.
  { intros r Hin. apply elem_of_pool. rewrite Forall_forall in Hrs.
    destruct (Hrs r Hin) as (? & _ & ? & _). repeat split; [|done..].
    cbn [runs w1 with_runs]. apply elem_of_app. by left. }
  assert (5 ≤ length (pool s w1)) as Hlen.
  { assert (length rs ≤ length (pool s w1)); [|lia].
    unfold pool. cbn [runs w1 with_runs]. rewrite filter_app, length_app.
    assert (filter (λ r, in_experiment s ACTIVE_ONLY r = true) rs = rs) as ->; [|lia].
    clear -Hrs. induction Hrs as [|r rs (He & _ & Hl & _) _ IH]; [done|].
    rewrite filter_cons_True, IH; [done|].
    unfold in_experiment, visible. by rewrite Hl, bool_decide_true by done. }
  assert (length (take 5 (ranked "rmse" s w1)) = 5) as Hcands.
  { rewrite length_take, (Permutation_length (ranked_perm "rmse" s w1)). lia. }
  destruct (select_model_succeeds input 5 uri hpo sel w1 s)
    as (best & new & s' & Hsel & Hs' & Hin & Hlow & Hnew); [done|done|done|lia| | |].
  { intros Hnil. rewrite Hnil in Hlen. simpl in Hlen. lia. }
  { apply Forall_forall. intros c Hc.
    assert (c ∈ runs w1) as Hcin.
    { apply subseteq_take in Hc. rewrite ranked_perm in Hc.
      by apply elem_of_pool in Hc as (? & _). }
    rewrite Forall_forall in Hrec1. destruct (Hrec1 c Hcin) as (family & Ht & Hfam).
    destruct (Hlearn family (params (data c)) Hfam) as (v & t & Hm).
    by exists family, v, t. }
  cbv zeta in Hsel, Hs', Hin, Hlow.
  destruct (selection_started_answered uri sel w1) as (s1 & _ & _ & _ & _ & Hreg1 & Hf1 & _);
    [done|].
  set (w2 := with_runs (new ++ runs w1) None (selection_started uri sel w1)) in *.
  assert (versions_of name w2 = versions_of name w) as Hv.
  { unfold versions_of. cbn [registry w2 with_runs]. rewrite Hreg1.
    cbn [registry w1 with_runs]. by rewrite Hreg0. }
  assert (baseline name w2 = None) as Hb.
  { apply baseline_None. unfold production_versions. by rewrite Hv. }
  exists w1, (promoted best name (with_tracking_uri uri w2)),
    (registered_version best (versions_of name w) Staging).
  split; [|split; [|split; [|split; [|split]]]].
  - unfold train_main. fold uri. rewrite Hnames. exact Htrain.
  - cbn [runs w1 with_runs]. rewrite !length_app. lia.
  - unfold select_and_register_main. cbv zeta. fold uri hpo sel name.
    unfold bind. rewrite Hsel. rewrite register_model_answered by done.
    cbv zeta. by rewrite Hb.
  - cbn [runs promoted with_registry with_tracking_uri w2 with_runs].
    rewrite length_app. lia.
  - unfold versions_of at 1. unfold promoted.
    cbn [registry with_registry]. rewrite lookup_insert_eq. cbn [default].
    change (versions_of name (with_tracking_uri uri w2)) with (versions_of name w2).
    by rewrite Hv.
  - done.
Qed.

End AgreedNames.

Lemma pipeline_with_agreed_names_witness :
  ∃ w1 w2 mv,
    train_main (T := toy_search) "data" None
      {[ "MLFLOW_EXPERIMENT_NAME" := "nyc-bus-delay-predictor-hpo" ]} fresh_world
      = (Return tt, w1) ∧
    length (runs w1) = 20 + length (runs fresh_world) ∧
    select_and_register_main (L := toy_learner) "data"
      {[ "MLFLOW_EXPERIMENT_NAME" := "nyc-bus-delay-predictor-hpo" ]} w1
      = (Return "model nyc-bus-delay-predictor updated", w2) ∧
    length (runs w2) = 5 + length (runs w1) ∧
    versions_of "nyc-bus-delay-predictor" w2
      = versions_of "nyc-bus-delay-predictor" fresh_world ++ [mv] ∧
    current_stage mv = Staging.
Proof.
  refine (pipeline_with_agreed_names (T := toy_search) "data" None
            {[ "MLFLOW_EXPERIMENT_NAME" := "nyc-bus-delay-predictor-hpo" ]}
            fresh_world tt tt tt tt tt tt
            eq_refl eq_refl eq_refl (Forall_nil_2 _) eq_refl
            eq_refl eq_refl eq_refl eq_refl _ _ _).
  - intros p. eexists _, _. split; reflexivity.
  - intros p. eexists _, _. split; reflexivity.
  - intros family ps [-> | ->]; eexists _, _; reflexivity.
Defined.
